(** * TinyG temperature controller (firmware/temperature/tinyg_tc.c)

    A shallow embedding of the heater state machine, the PID routine, the
    temperature sensor and the tick dispatcher of [tinyg_tc.c], and the
    properties of its specification.

    Conventions of the embedding:
    - a C [double] is an IEEE 754 binary64 number: Rocq's primitive [float],
      with the hardware operations ([+], [-], [*], [/], [<?], [abs]);
    - a [uint8_t] is a [Z] in [0, 256), with the wrap-around of [++] and [--]
      written out;
    - the enumerations of the absent header [tinyg_tc.h] are inductive types
      carrying the enumerators the source names;
    - each C global struct is a record; a function takes the structs it reads
      and returns the structs it writes. *)

From Stdlib Require Import ZArith List Bool Lia ZifyNat.
From Stdlib Require Import Uint63 Floats.
Import ListNotations.

Set Warnings "-inexact-float".
Local Open Scope Z_scope.

(** ** Numbers *)

(** [(double) n] for an unsigned 8-bit [n]. *)
Definition double_of_u8 (n : Z) : float := PrimFloat.of_uint63 (Uint63.of_Z n).

(** [++x] and [--x] on a [uint8_t]. *)
Definition u8_incr (x : Z) : Z := (x + 1) mod 256.
Definition u8_decr (x : Z) : Z := (x - 1) mod 256.

Definition fabs (x : float) : float := PrimFloat.abs x.

(** ** The header [tinyg_tc.h] and [kinen_core.h]

    Neither header is part of the sources.  Their numeric constants are taken
    as parameters, collected in one record. *)

Record Header : Set := {
  HEATER_TICK_SECONDS : float;
  HEATER_AMBIENT_TIMEOUT : float;
  HEATER_REGULATION_TIMEOUT : float;
  HEATER_AMBIENT_TEMPERATURE : float;
  HEATER_OVERHEAT_TEMPERATURE : float;
  PID_MAX_OUTPUT : float;
  PID_MIN_OUTPUT : float;
  PID_Kp : float;
  PID_Ki : float;
  PID_Kd : float;
  SENSOR_SAMPLES_PER_READING : Z;
  SENSOR_RETRIES : Z;
  SENSOR_VARIANCE_RANGE : float;
  SENSOR_DISCONNECTED_TEMPERATURE : float;
  SENSOR_NO_POWER_TEMPERATURE : float;
  ABSOLUTE_ZERO : float;
  SURFACE_OF_THE_SUN : float;
  HOTTER_THAN_THE_SUN : float
}.

(** Status codes of [kinen_core.h] used by this file. *)
Inductive StatusCode : Set :=
  | SC_OK | SC_ERROR | SC_EAGAIN | SC_NOOP | SC_INVALID_ADDRESS.

(** Modelled from the spec: the enumerations of [tinyg_tc.h] are missing; the
    heater states are the seven the source names (spec 4.3: Uninitialized, Off,
    On, Heating, AtTemperature, Cooling, Shutdown).  [HEATER_UNINIT] is the
    value of zeroed storage. *)
Inductive HeaterState : Set :=
  | HEATER_UNINIT
  | HEATER_OFF
  | HEATER_ON
  | HEATER_HEATING
  | HEATER_AT_TEMPERATURE
  | HEATER_COOLING
  | HEATER_SHUTDOWN.

(** Modelled from the spec: the heater codes of the missing header are the
    three the source names.  [HEATER_OK] is the value [memset] leaves in
    [heater.code]: the spec has the reinit of [heater_turn_on] clear the fault
    code (spec 4.3, 8). *)
Inductive HeaterCode : Set :=
  | HEATER_OK
  | HEATER_AMBIENT_TIMED_OUT
  | HEATER_REGULATION_TIMED_OUT.

(** Modelled from the spec: sensor states of the missing header (spec 4.2:
    Uninitialized, HasNoData, HasData, Shutdown); [SENSOR_UNINIT] is the value
    of zeroed storage. *)
Inductive SensorState : Set :=
  | SENSOR_UNINIT
  | SENSOR_HAS_NO_DATA
  | SENSOR_HAS_DATA
  | SENSOR_SHUTDOWN.

(** Modelled from the spec: sensor codes of the missing header, the four the
    source names; [SENSOR_OK] is the value [memset] leaves in [sensor.code]. *)
Inductive SensorCode : Set :=
  | SENSOR_OK
  | SENSOR_BAD_READINGS
  | SENSOR_DISCONNECTED
  | SENSOR_NO_POWER.

(** Modelled from the spec: PID states and codes of the missing header; only
    [PID_OFF] and [PID_OK] occur in the source. *)
Inductive PidState : Set := PID_UNINIT | PID_OFF | PID_ON.
Inductive PidCode : Set := PID_OK.

Definition HeaterState_eqb (a b : HeaterState) : bool :=
  match a, b with
  | HEATER_UNINIT, HEATER_UNINIT
  | HEATER_OFF, HEATER_OFF
  | HEATER_ON, HEATER_ON
  | HEATER_HEATING, HEATER_HEATING
  | HEATER_AT_TEMPERATURE, HEATER_AT_TEMPERATURE
  | HEATER_COOLING, HEATER_COOLING
  | HEATER_SHUTDOWN, HEATER_SHUTDOWN => true
  | _, _ => false
  end.

Definition SensorState_eqb (a b : SensorState) : bool :=
  match a, b with
  | SENSOR_UNINIT, SENSOR_UNINIT
  | SENSOR_HAS_NO_DATA, SENSOR_HAS_NO_DATA
  | SENSOR_HAS_DATA, SENSOR_HAS_DATA
  | SENSOR_SHUTDOWN, SENSOR_SHUTDOWN => true
  | _, _ => false
  end.

(** ** The global structs *)

(** [struct Device]: tick counters and the PWM frequency. *)
Module Device.
Record t : Set := mk {
  tick_flag : bool;
  tick_100ms_count : Z;
  tick_1sec_count : Z;
  pwm_freq : float
}.

Definition set_tick_flag (d : t) (v : bool) : t :=
  mk v (tick_100ms_count d) (tick_1sec_count d) (pwm_freq d).
Definition set_tick_100ms_count (d : t) (v : Z) : t :=
  mk (tick_flag d) v (tick_1sec_count d) (pwm_freq d).
Definition set_tick_1sec_count (d : t) (v : Z) : t :=
  mk (tick_flag d) (tick_100ms_count d) v (pwm_freq d).
End Device.

(** [struct Heater]. *)
Module Heater.
Record t : Set := mk {
  state : HeaterState;
  code : HeaterCode;
  temperature : float;
  setpoint : float;
  regulation_timer : float;
  ambient_timeout : float;
  regulation_timeout : float;
  ambient_temperature : float;
  overheat_temperature : float
}.

(** [memset(&heater, 0, sizeof(struct Heater))]. *)
Definition zero : t :=
  mk HEATER_UNINIT HEATER_OK 0 0 0 0 0 0 0.

Definition set_state (h : t) (v : HeaterState) : t :=
  mk v (code h) (temperature h) (setpoint h) (regulation_timer h)
     (ambient_timeout h) (regulation_timeout h) (ambient_temperature h)
     (overheat_temperature h).
Definition set_code (h : t) (v : HeaterCode) : t :=
  mk (state h) v (temperature h) (setpoint h) (regulation_timer h)
     (ambient_timeout h) (regulation_timeout h) (ambient_temperature h)
     (overheat_temperature h).
Definition set_temperature (h : t) (v : float) : t :=
  mk (state h) (code h) v (setpoint h) (regulation_timer h)
     (ambient_timeout h) (regulation_timeout h) (ambient_temperature h)
     (overheat_temperature h).
Definition set_regulation_timer (h : t) (v : float) : t :=
  mk (state h) (code h) (temperature h) (setpoint h) v
     (ambient_timeout h) (regulation_timeout h) (ambient_temperature h)
     (overheat_temperature h).
End Heater.

(** [struct PIDstruct]. *)
Module PID.
Record t : Set := mk {
  state : PidState;
  code : PidCode;
  temperature : float;
  setpoint : float;
  error : float;
  prev_error : float;
  integral : float;
  derivative : float;
  output : float;
  max : float;
  min : float;
  Kp : float;
  Ki : float;
  Kd : float
}.

Definition set_error (p : t) (v : float) : t :=
  mk (state p) (code p) (temperature p) (setpoint p) v (prev_error p)
     (integral p) (derivative p) (output p) (max p) (min p) (Kp p) (Ki p)
     (Kd p).
Definition set_prev_error (p : t) (v : float) : t :=
  mk (state p) (code p) (temperature p) (setpoint p) (error p) v
     (integral p) (derivative p) (output p) (max p) (min p) (Kp p) (Ki p)
     (Kd p).
Definition set_integral (p : t) (v : float) : t :=
  mk (state p) (code p) (temperature p) (setpoint p) (error p) (prev_error p)
     v (derivative p) (output p) (max p) (min p) (Kp p) (Ki p) (Kd p).
Definition set_derivative (p : t) (v : float) : t :=
  mk (state p) (code p) (temperature p) (setpoint p) (error p) (prev_error p)
     (integral p) v (output p) (max p) (min p) (Kp p) (Ki p) (Kd p).
Definition set_output (p : t) (v : float) : t :=
  mk (state p) (code p) (temperature p) (setpoint p) (error p) (prev_error p)
     (integral p) (derivative p) v (max p) (min p) (Kp p) (Ki p) (Kd p).
End PID.

(** [struct TemperatureSensor]. *)
Module Sensor.
Record t : Set := mk {
  state : SensorState;
  code : SensorCode;
  samples_per_reading : Z;
  samples : Z;
  retries : Z;
  temperature : float;
  previous_temp : float;
  accumulator : float;
  variance : float;
  disconnect_temperature : float;
  no_power_temperature : float
}.

Definition set_state (s : t) (v : SensorState) : t :=
  mk v (code s) (samples_per_reading s) (samples s) (retries s)
     (temperature s) (previous_temp s) (accumulator s) (variance s)
     (disconnect_temperature s) (no_power_temperature s).
Definition set_code (s : t) (v : SensorCode) : t :=
  mk (state s) v (samples_per_reading s) (samples s) (retries s)
     (temperature s) (previous_temp s) (accumulator s) (variance s)
     (disconnect_temperature s) (no_power_temperature s).
Definition set_samples (s : t) (v : Z) : t :=
  mk (state s) (code s) (samples_per_reading s) v (retries s)
     (temperature s) (previous_temp s) (accumulator s) (variance s)
     (disconnect_temperature s) (no_power_temperature s).
Definition set_temperature (s : t) (v : float) : t :=
  mk (state s) (code s) (samples_per_reading s) (samples s) (retries s)
     v (previous_temp s) (accumulator s) (variance s)
     (disconnect_temperature s) (no_power_temperature s).
Definition set_previous_temp (s : t) (v : float) : t :=
  mk (state s) (code s) (samples_per_reading s) (samples s) (retries s)
     (temperature s) v (accumulator s) (variance s)
     (disconnect_temperature s) (no_power_temperature s).
Definition set_accumulator (s : t) (v : float) : t :=
  mk (state s) (code s) (samples_per_reading s) (samples s) (retries s)
     (temperature s) (previous_temp s) v (variance s)
     (disconnect_temperature s) (no_power_temperature s).
End Sensor.

(** The handlers [tick_callback] dispatches to. *)
Inductive Handler : Set := Tick10ms | Tick100ms | Tick1sec.

Definition Handler_eqb (a b : Handler) : bool :=
  match a, b with
  | Tick10ms, Tick10ms | Tick100ms, Tick100ms | Tick1sec, Tick1sec => true
  | _, _ => false
  end.

(** All the static data of the file, with two ghost fields: [adc_reads], the
    number of evaluations of [SAMPLE] so far, and [calls], the handlers run so
    far, latest first. *)
Record Globals : Set := mkGlobals {
  device : Device.t;
  heater : Heater.t;
  pid : PID.t;
  sensor : Sensor.t;
  adc_reads : nat;
  calls : list Handler
}.

(** ** The functions of [tinyg_tc.c] *)

Section Firmware.

(** The constants of the absent headers. *)
Variable hdr : Header.

(** The [SAMPLE(a)] macro.  Its production form converts [adc_read(a)] with
    the sensor slope and offset; the form left active returns one fixed
    value.  [SAMPLE k] is the value of its [k]-th evaluation since start-up,
    so both forms are instances. *)
Variable SAMPLE : nat -> float.

(** *** Heater *)

(** [heater_init]: the struct is zeroed, then the four constants and the
    state are assigned. *)
Definition heater_init : Heater.t :=
  Heater.mk HEATER_OFF HEATER_OK 0 0 0
    (HEATER_AMBIENT_TIMEOUT hdr) (HEATER_REGULATION_TIMEOUT hdr)
    (HEATER_AMBIENT_TEMPERATURE hdr) (HEATER_OVERHEAT_TEMPERATURE hdr).

(** [heater_turn_on]: the [HEATER_SHUTDOWN] case falls through to the
    [HEATER_OFF] and [HEATER_COOLING] cases. *)
Definition heater_turn_on (h : Heater.t) : StatusCode * Heater.t :=
  match Heater.state h with
  | HEATER_UNINIT => (SC_ERROR, h)
  | HEATER_SHUTDOWN => (SC_OK, Heater.set_state heater_init HEATER_ON)
  | HEATER_OFF | HEATER_COOLING => (SC_OK, Heater.set_state h HEATER_ON)
  | _ => (SC_OK, h)
  end.

Definition heater_turn_off (h : Heater.t) : StatusCode * Heater.t :=
  match Heater.state h with
  | HEATER_UNINIT => (SC_ERROR, h)
  | HEATER_ON | HEATER_HEATING | HEATER_AT_TEMPERATURE =>
      (SC_OK, Heater.set_state h HEATER_OFF)
  | _ => (SC_OK, h)
  end.

(** *** Sensor accessors *)

Definition sensor_get_temperature (s : Sensor.t) : float :=
  if SensorState_eqb (Sensor.state s) SENSOR_HAS_DATA
  then Sensor.temperature s
  else SURFACE_OF_THE_SUN hdr.

Definition sensor_get_state (s : Sensor.t) : SensorState := Sensor.state s.
Definition sensor_get_code (s : Sensor.t) : SensorCode := Sensor.code s.
Definition sensor_start_temperature_reading (s : Sensor.t) : Sensor.t :=
  Sensor.set_samples s 0.

(** *** [heater_callback]: the 100 ms tick of the heater

    It writes [heater] and, through [sensor_start_temperature_reading],
    [sensor.samples]; the value returned is [heater.code]. *)
Definition heater_callback (sh : Sensor.t * Heater.t)
  : HeaterCode * (Sensor.t * Heater.t) :=
  let (s, h) := sh in
  let h := Heater.set_code h HEATER_OK in
  if HeaterState_eqb (Heater.state h) HEATER_UNINIT
     || HeaterState_eqb (Heater.state h) HEATER_OFF
     || HeaterState_eqb (Heater.state h) HEATER_SHUTDOWN
  then (Heater.code h, (s, h))
  else
    let s := sensor_start_temperature_reading s in
    if negb (SensorState_eqb (sensor_get_state s) SENSOR_HAS_DATA)
    then (Heater.code h, (s, h))
    else
      let h := Heater.set_temperature h (sensor_get_temperature s) in
      if HeaterState_eqb (Heater.state h) HEATER_COOLING
      then (Heater.code h, (s, h))
      else if HeaterState_eqb (Heater.state h) HEATER_ON then
        let h := Heater.set_regulation_timer h 0 in
        let h := Heater.set_state h HEATER_HEATING in
        (Heater.code h, (s, h))
      else if HeaterState_eqb (Heater.state h) HEATER_HEATING then
        let h := Heater.set_regulation_timer h
                   (Heater.regulation_timer h + HEATER_TICK_SECONDS hdr)%float in
        if (Heater.temperature h <? Heater.ambient_temperature h)%float
           && (Heater.ambient_timeout h <? Heater.regulation_timer h)%float
        then
          let h := Heater.set_state h HEATER_SHUTDOWN in
          let h := Heater.set_code h HEATER_AMBIENT_TIMED_OUT in
          (Heater.code h, (s, h))
        else if (Heater.temperature h <? Heater.setpoint h)%float
                && (Heater.regulation_timeout h <? Heater.regulation_timer h)%float
        then
          let h := Heater.set_state h HEATER_SHUTDOWN in
          let h := Heater.set_code h HEATER_REGULATION_TIMED_OUT in
          (Heater.code h, (s, h))
        else (Heater.code h, (s, h))
      else (Heater.code h, (s, h)).

(** *** PID *)

(** [pid_init]: the struct is zeroed, then the bounds, the gains and the
    state are assigned. *)
Definition pid_init : PID.t :=
  PID.mk PID_OFF PID_OK 0 0 0 0 0 0 0
    (PID_MAX_OUTPUT hdr) (PID_MIN_OUTPUT hdr)
    (PID_Kp hdr) (PID_Ki hdr) (PID_Kd hdr).

(** The macros defined next to [pid_calc]. *)
Definition epsilon : float := 0.01.
Definition dt : float := 0.01.
Definition MAX : float := 4.
Definition MIN : float := -4.

(** [pid_calc]: returns [pid.output] and the updated [pid]. *)
Definition pid_calc (p : PID.t) (setpoint temperature : float)
  : float * PID.t :=
  let p := PID.set_error p (setpoint - temperature)%float in
  let p := if (epsilon <? fabs (PID.error p))%float
           then PID.set_integral p (PID.integral p + PID.error p * dt)%float
           else p in
  let p := PID.set_derivative p
             ((PID.error p - PID.prev_error p) / dt)%float in
  let p := PID.set_output p
             (PID.Kp p * PID.error p + PID.Ki p * PID.integral p
              + PID.Kd p * PID.derivative p)%float in
  let p := if (MAX <? PID.output p)%float then PID.set_output p MAX
           else if (PID.output p <? MIN)%float then PID.set_output p MIN
           else p in
  let p := PID.set_prev_error p (PID.error p) in
  (PID.output p, p).

Definition pid_callback (h : Heater.t) (p : PID.t) : PidCode * PID.t :=
  (PID_OK, snd (pid_calc p (Heater.setpoint h) (Heater.temperature h))).

(** *** Temperature sensor *)

(** [sensor_init]: the struct is zeroed, then the configuration, the
    temperature and the state are assigned. *)
Definition sensor_init : Sensor.t :=
  Sensor.mk SENSOR_HAS_NO_DATA SENSOR_OK
    (SENSOR_SAMPLES_PER_READING hdr) 0 (SENSOR_RETRIES hdr)
    (ABSOLUTE_ZERO hdr) 0 0 (SENSOR_VARIANCE_RANGE hdr)
    (SENSOR_DISCONNECTED_TEMPERATURE hdr) (SENSOR_NO_POWER_TEMPERATURE hdr).

(** The [for (uint8_t i = sensor.retries; i > 0; --i)] loop of
    [_sensor_sample], entered with the current [sample]; [k] counts the
    evaluations of [SAMPLE] so far.  Falling out of the loop returns
    [HOTTER_THAN_THE_SUN]. *)
Fixpoint sample_loop (i : nat) (sample : float) (s : Sensor.t) (k : nat)
  : float * (Sensor.t * nat) :=
  match i with
  | O => (HOTTER_THAN_THE_SUN hdr, (s, k))
  | S i' =>
      if (fabs (sample - Sensor.previous_temp s) <? Sensor.variance s)%float
      then (sample, (Sensor.set_previous_temp s sample, k))
      else sample_loop i' (SAMPLE k) s (S k)
  end.

Definition _sensor_sample (sk : Sensor.t * nat) (new_period : bool)
  : float * (Sensor.t * nat) :=
  let (s, k) := sk in
  let sample := SAMPLE k in
  let k := S k in
  if new_period
  then (sample, (Sensor.set_previous_temp s sample, k))
  else sample_loop (Z.to_nat (Sensor.retries s)) sample s k.

(** [sensor_callback]: the 10 ms tick of the sensor; returns [sensor.code]. *)
Definition sensor_callback (sk : Sensor.t * nat)
  : SensorCode * (Sensor.t * nat) :=
  let (s, k) := sk in
  let s := Sensor.set_code s SENSOR_OK in
  if SensorState_eqb (Sensor.state s) SENSOR_UNINIT
     || SensorState_eqb (Sensor.state s) SENSOR_SHUTDOWN
  then (Sensor.code s, (s, k))
  else
    let new_period := Sensor.samples s =? 0 in
    let s := if new_period then Sensor.set_accumulator s 0 else s in
    let '(temperature, (s, k)) := _sensor_sample (s, k) new_period in
    if (SURFACE_OF_THE_SUN hdr <? temperature)%float
    then
      let s := Sensor.set_state s SENSOR_SHUTDOWN in
      let s := Sensor.set_code s SENSOR_BAD_READINGS in
      (Sensor.code s, (s, k))
    else
      let s := Sensor.set_accumulator s
                 (Sensor.accumulator s + temperature)%float in
      let s := Sensor.set_samples s (u8_incr (Sensor.samples s)) in
      if Sensor.samples s <? Sensor.samples_per_reading s
      then (Sensor.code s, (s, k))
      else
        let s := Sensor.set_temperature s
                   (Sensor.accumulator s / double_of_u8 (Sensor.samples s))%float in
        let s :=
          if (SENSOR_DISCONNECTED_TEMPERATURE hdr <? Sensor.temperature s)%float
          then Sensor.set_code (Sensor.set_state s SENSOR_HAS_NO_DATA)
                 SENSOR_DISCONNECTED
          else if (Sensor.temperature s <? SENSOR_NO_POWER_TEMPERATURE hdr)%float
          then Sensor.set_code (Sensor.set_state s SENSOR_HAS_NO_DATA)
                 SENSOR_NO_POWER
          else Sensor.set_state s SENSOR_HAS_DATA in
        (Sensor.code s, (s, k)).

(** *** Tick: the regular interval timer *)

(** [tick_init], on the fields of [device] (the timer registers are not
    modelled). *)
Definition tick_init (d : Device.t) : Device.t :=
  Device.set_tick_1sec_count (Device.set_tick_100ms_count d 10) 10.

(** [ISR(TIMER0_OVF_vect)]. *)
Definition TIMER0_OVF_vect (d : Device.t) : Device.t :=
  Device.set_tick_flag d true.

(** Ghost: record that handler [e] runs. *)
Definition log (e : Handler) (g : Globals) : Globals :=
  mkGlobals (device g) (heater g) (pid g) (sensor g) (adc_reads g)
    (e :: calls g).

(** [tick_10ms], [tick_100ms], [tick_1sec]: the handlers; the status codes
    of the callbacks they call are dropped, as in the source. *)
Definition tick_10ms (g : Globals) : Globals :=
  let g := log Tick10ms g in
  let '(_, (s, k)) := sensor_callback (sensor g, adc_reads g) in
  mkGlobals (device g) (heater g) (pid g) s k (calls g).

Definition tick_100ms (g : Globals) : Globals :=
  let g := log Tick100ms g in
  let '(_, (s, h)) := heater_callback (sensor g, heater g) in
  mkGlobals (device g) h (pid g) s (adc_reads g) (calls g).

Definition tick_1sec (g : Globals) : Globals := log Tick1sec g.

(** Assignment to [device]. *)
Definition with_device (g : Globals) (d : Device.t) : Globals :=
  mkGlobals d (heater g) (pid g) (sensor g) (adc_reads g) (calls g).

(** [tick_callback]: each [--count != 0] stores the decremented counter and
    tests it. *)
Definition tick_callback (g : Globals) : StatusCode * Globals :=
  if negb (Device.tick_flag (device g)) then (SC_NOOP, g)
  else
    let g := with_device g (Device.set_tick_flag (device g) false) in
    let g := tick_10ms g in
    let g := with_device g
               (Device.set_tick_100ms_count (device g)
                  (u8_decr (Device.tick_100ms_count (device g)))) in
    if negb (Device.tick_100ms_count (device g) =? 0) then (SC_OK, g)
    else
      let g := with_device g (Device.set_tick_100ms_count (device g) 10) in
      let g := tick_100ms g in
      let g := with_device g
                 (Device.set_tick_1sec_count (device g)
                    (u8_decr (Device.tick_1sec_count (device g)))) in
      if negb (Device.tick_1sec_count (device g) =? 0) then (SC_OK, g)
      else
        let g := with_device g (Device.set_tick_1sec_count (device g) 10) in
        let g := tick_1sec g in
        (SC_OK, g).

(** One timer period: the interrupt fires, then the dispatch loop reaches
    [tick_callback]. *)
Definition tick_period (g : Globals) : Globals :=
  snd (tick_callback (with_device g (TIMER0_OVF_vect (device g)))).

Fixpoint tick_periods (n : nat) (g : Globals) : Globals :=
  match n with
  | O => g
  | S n' => tick_period (tick_periods n' g)
  end.

(** [n] successive calls of [heater_callback]. *)
Fixpoint heater_ticks (n : nat) (sh : Sensor.t * Heater.t)
  : Sensor.t * Heater.t :=
  match n with
  | O => sh
  | S n' => snd (heater_callback (heater_ticks n' sh))
  end.

(** [n] successive calls of [sensor_callback], with the codes returned,
    latest first. *)
Fixpoint sensor_ticks (n : nat) (sk : Sensor.t * nat)
  : list SensorCode * (Sensor.t * nat) :=
  match n with
  | O => ([], sk)
  | S n' =>
      let (codes, sk') := sensor_ticks n' sk in
      let (c, sk'') := sensor_callback sk' in
      (c :: codes, sk'')
  end.

End Firmware.

(** ** The dispatch loop, the Kinen byte interface, the LED and the ADC *)

Section Peripherals.

Variable hdr : Header.
Variable SAMPLE : nat -> float.

(** [kinen_callback] of [kinen_core]: not part of the sources; it returns a
    status code and may write the static data. *)
Variable kinen_callback : Globals -> StatusCode * Globals.

(** [KINEN_COMMON_MAX] and [DEVICE_ADDRESS_MAX] of the absent headers. *)
Variables KINEN_COMMON_MAX DEVICE_ADDRESS_MAX : Z.

(** [LED_PIN] of the absent header: the mask of the LED in [LED_PORT]. *)
Variable LED_PIN : Z.

(** [ADIF] of [avr/io.h]: the number of the conversion flag bit in
    [ADCSRA]. *)
Variable ADIF : Z.

Definition StatusCode_eqb (a b : StatusCode) : bool :=
  match a, b with
  | SC_OK, SC_OK | SC_ERROR, SC_ERROR | SC_EAGAIN, SC_EAGAIN
  | SC_NOOP, SC_NOOP | SC_INVALID_ADDRESS, SC_INVALID_ADDRESS => true
  | _, _ => false
  end.

(** [_controller]: one pass of the dispatch loop.  [DISPATCH(func)] returns
    from [_controller] when [func] gives [SC_EAGAIN]. *)
Definition _controller (g : Globals) : Globals :=
  let (sc, g) := kinen_callback g in
  if StatusCode_eqb sc SC_EAGAIN then g
  else
    let (sc, g) := tick_callback hdr SAMPLE g in
    if StatusCode_eqb sc SC_EAGAIN then g else g.

(** [a[i] = v] on an array held as a list. *)
Fixpoint array_set (a : list Z) (i : nat) (v : Z) : list Z :=
  match a, i with
  | [], _ => []
  | _ :: t, O => v :: t
  | x :: t, S i' => x :: array_set t i' v
  end.

(** [device_read_byte]: returns the status and the byte at [*data]
    afterwards; [data] is the byte there before. *)
Definition device_read_byte (device_array : list Z) (addr data : Z)
  : StatusCode * Z :=
  let addr := (addr - KINEN_COMMON_MAX) mod 256 in
  if DEVICE_ADDRESS_MAX <=? addr then (SC_INVALID_ADDRESS, data)
  else (SC_OK, nth (Z.to_nat addr) device_array 0).

(** [device_write_byte]: returns the status and [device_array]
    afterwards. *)
Definition device_write_byte (device_array : list Z) (addr data : Z)
  : StatusCode * list Z :=
  let addr := (addr - KINEN_COMMON_MAX) mod 256 in
  if DEVICE_ADDRESS_MAX <=? addr then (SC_INVALID_ADDRESS, device_array)
  else (SC_OK, array_set device_array (Z.to_nat addr) data).

(** [led_on], [led_off], [led_toggle] on the 8-bit register [LED_PORT]. *)
Definition led_on (LED_PORT : Z) : Z := Z.land LED_PORT (Z.lnot LED_PIN).

Definition led_off (LED_PORT : Z) : Z := (Z.lor LED_PORT LED_PIN) mod 256.

Definition led_toggle (LED_PORT : Z) : Z :=
  if negb (LED_PORT =? 0) && negb (LED_PIN =? 0)
  then led_on LED_PORT
  else led_off LED_PORT.

(** [adc_read], the two assignments that select the channel in [ADMUX]. *)
Definition adc_read_ADMUX (ADMUX channel : Z) : Z :=
  let ADMUX := Z.land ADMUX 240 in
  Z.lor ADMUX (Z.land 15 channel).

(** [adc_read], the condition of its wait loop:
    [ADCSRA && (1<<ADIF) == 0]. *)
Definition adc_read_waits (ADCSRA : Z) : bool :=
  negb (ADCSRA =? 0) && (Z.shiftl 1 ADIF =? 0).

End Peripherals.

(** A command for the heater: [heater_turn_on], [heater_turn_off], or a
    100 ms tick with the sensor as it is at that tick. *)
Inductive HeaterOp : Set :=
  | OpTurnOn
  | OpTurnOff
  | OpTick (s : Sensor.t).

(** The heater after a sequence of commands, first command first. *)
Fixpoint heater_run (hdr : Header) (ops : list HeaterOp) (h : Heater.t)
  : Heater.t :=
  match ops with
  | [] => h
  | OpTurnOn :: ops' => heater_run hdr ops' (snd (heater_turn_on hdr h))
  | OpTurnOff :: ops' => heater_run hdr ops' (snd (heater_turn_off h))
  | OpTick s :: ops' =>
      heater_run hdr ops' (snd (snd (heater_callback hdr (s, h))))
  end.

(** The [SAMPLE(a)] macro in the form the source leaves active:
    [((double)200 * SENSOR_SLOPE) + SENSOR_OFFSET].  Neither the argument nor
    the ADC is read, so every evaluation gives the same value; [k] is the
    number of the evaluation.  [SENSOR_SLOPE] and [SENSOR_OFFSET] are
    constants of the absent [tinyg_tc.h]. *)
Module Active.
Definition SAMPLE (SENSOR_SLOPE SENSOR_OFFSET : float) (k : nat) : float :=
  (200 * SENSOR_SLOPE + SENSOR_OFFSET)%float.
End Active.

(** ** Vocabulary of the properties

    The closed inputs on which the functions are evaluated below, and the
    notions the statements use: windows of samples and their mean, the sensor
    inside and at the end of a window, the count of handler runs. *)

(** Header values for the evaluations: the tick period, ambient timeout and
    ambient floor are those of the ambient-timeout scenario of the
    specification; the others are placeholders in the usual ranges. *)
Definition scenario_header : Header :=
  {| HEATER_TICK_SECONDS := 0.1;
     HEATER_AMBIENT_TIMEOUT := 30;
     HEATER_REGULATION_TIMEOUT := 300;
     HEATER_AMBIENT_TEMPERATURE := 50;
     HEATER_OVERHEAT_TEMPERATURE := 300;
     PID_MAX_OUTPUT := 100;
     PID_MIN_OUTPUT := 0;
     PID_Kp := 5;
     PID_Ki := 0.1;
     PID_Kd := 0.5;
     SENSOR_SAMPLES_PER_READING := 8;
     SENSOR_RETRIES := 3;
     SENSOR_VARIANCE_RANGE := 20;
     SENSOR_DISCONNECTED_TEMPERATURE := 400;
     SENSOR_NO_POWER_TEMPERATURE := -50;
     ABSOLUTE_ZERO := -273.15;
     SURFACE_OF_THE_SUN := 5505;
     HOTTER_THAN_THE_SUN := 10000 |}.

(** A sensor holding a confirmed reading of 20 degrees. *)
Definition sensor_at_20 : Sensor.t :=
  {| Sensor.state := SENSOR_HAS_DATA;
     Sensor.code := SENSOR_OK;
     Sensor.samples_per_reading := 8;
     Sensor.samples := 8;
     Sensor.retries := 3;
     Sensor.temperature := 20;
     Sensor.previous_temp := 20;
     Sensor.accumulator := 160;
     Sensor.variance := 20;
     Sensor.disconnect_temperature := 400;
     Sensor.no_power_temperature := -50 |}.

(** The heater just turned on, set point 200, ambient floor 50, ambient
    timeout 30 s, regulation timeout 300 s. *)
Definition heater_just_on : Heater.t :=
  {| Heater.state := HEATER_ON;
     Heater.code := HEATER_OK;
     Heater.temperature := 0;
     Heater.setpoint := 200;
     Heater.regulation_timer := 0;
     Heater.ambient_timeout := 30;
     Heater.regulation_timeout := 300;
     Heater.ambient_temperature := 50;
     Heater.overheat_temperature := 300 |}.

(** [regulation_timer] after [k] additions of a 0.1 s tick. *)
Fixpoint accrued (k : nat) : float :=
  match k with
  | O => 0
  | S k' => (accrued k' + 0.1)%float
  end.

(** Whether none of the first [k] accrued timer values exceeds 30 s. *)
Fixpoint all_within (k : nat) : bool :=
  match k with
  | O => true
  | S k' => all_within k' && (accrued k <=? 30)%float
  end.

(** The heater shut down by the ambient timeout. *)
Definition heater_timed_out : Heater.t :=
  {| Heater.state := HEATER_SHUTDOWN;
     Heater.code := HEATER_AMBIENT_TIMED_OUT;
     Heater.temperature := 20;
     Heater.setpoint := 200;
     Heater.regulation_timer := 30.000000000000156;
     Heater.ambient_timeout := 30;
     Heater.regulation_timeout := 300;
     Heater.ambient_temperature := 50;
     Heater.overheat_temperature := 300 |}.

(** The PID controller as [pid_init] leaves it under [scenario_header]:
    saturation bounds [min = 0] and [max = 100]. *)
Definition pid_configured : PID.t := pid_init scenario_header.

(** A sensor three samples into a window of eight: the previous accepted
    sample is 20, the variance bound 20, the retry budget 3. *)
Definition sensor_mid_window : Sensor.t :=
  {| Sensor.state := SENSOR_HAS_NO_DATA;
     Sensor.code := SENSOR_OK;
     Sensor.samples_per_reading := 8;
     Sensor.samples := 3;
     Sensor.retries := 3;
     Sensor.temperature := -273.15;
     Sensor.previous_temp := 20;
     Sensor.accumulator := 60;
     Sensor.variance := 20;
     Sensor.disconnect_temperature := 400;
     Sensor.no_power_temperature := -50 |}.

(** A spike that ends with the third retry: the sample and its first two
    retries read 100, the third retry and all later samples read 21. *)
Definition spike_until_third_retry (k : nat) : float :=
  if (k <? 3)%nat then 100%float else 21%float.

(** A spike that ends with the second retry. *)
Definition spike_until_second_retry (k : nat) : float :=
  if (k <? 2)%nat then 100%float else 21%float.

(** A thermocouple reading 450 degrees throughout, and one reading -100. *)
Definition steady_450 (k : nat) : float := 450%float.
Definition steady_minus_100 (k : nat) : float := (-100)%float.

(** A steady ramp: 100, 101, 102, ... *)
Definition ramp (k : nat) : float :=
  (100 + double_of_u8 (Z.of_nat k))%float.

(** The samples [SAMPLE k], ..., [SAMPLE (k + n - 1)]. *)
Definition window (SAMPLE : nat -> float) (k n : nat) : list float :=
  map SAMPLE (seq k n).

(** Sum of a list of samples, added left to right from zero, and their
    arithmetic mean. *)
Definition sum_samples (l : list float) : float :=
  fold_left PrimFloat.add l 0%float.

Definition mean (l : list float) : float :=
  (sum_samples l / double_of_u8 (Z.of_nat (length l)))%float.

(** The sensor [n] accepted samples into a window that started at the [k]-th
    evaluation of [SAMPLE], for [n >= 1]: only [code], [samples],
    [previous_temp] and [accumulator] differ from the sensor [s] the window
    started from. *)
Definition in_window (SAMPLE : nat -> float) (s : Sensor.t) (k n : nat)
  : Sensor.t :=
  {| Sensor.state := Sensor.state s;
     Sensor.code := SENSOR_OK;
     Sensor.samples_per_reading := Sensor.samples_per_reading s;
     Sensor.samples := Z.of_nat n;
     Sensor.retries := Sensor.retries s;
     Sensor.temperature := Sensor.temperature s;
     Sensor.previous_temp := SAMPLE (Nat.pred n + k)%nat;
     Sensor.accumulator := sum_samples (window SAMPLE k n);
     Sensor.variance := Sensor.variance s;
     Sensor.disconnect_temperature := Sensor.disconnect_temperature s;
     Sensor.no_power_temperature := Sensor.no_power_temperature s |}.

(** The sensor at the end of a window: [n] samples taken, the last accepted
    one [prev], their sum [acc].  The temperature is the quotient, and the
    state and code follow its comparison with the two thresholds. *)
Definition reading_done (hdr : Header) (s : Sensor.t) (n : Z)
  (prev acc : float) : Sensor.t :=
  let m := (acc / double_of_u8 n)%float in
  let (st, cd) :=
    if (SENSOR_DISCONNECTED_TEMPERATURE hdr <? m)%float
    then (SENSOR_HAS_NO_DATA, SENSOR_DISCONNECTED)
    else if (m <? SENSOR_NO_POWER_TEMPERATURE hdr)%float
         then (SENSOR_HAS_NO_DATA, SENSOR_NO_POWER)
         else (SENSOR_HAS_DATA, SENSOR_OK) in
  {| Sensor.state := st;
     Sensor.code := cd;
     Sensor.samples_per_reading := Sensor.samples_per_reading s;
     Sensor.samples := n;
     Sensor.retries := Sensor.retries s;
     Sensor.temperature := m;
     Sensor.previous_temp := prev;
     Sensor.accumulator := acc;
     Sensor.variance := Sensor.variance s;
     Sensor.disconnect_temperature := Sensor.disconnect_temperature s;
     Sensor.no_power_temperature := Sensor.no_power_temperature s |}.

(** How many times handler [e] has run. *)
Definition runs (e : Handler) (g : Globals) : nat :=
  length (filter (Handler_eqb e) (calls g)).

(** The static data once [device_init] has run under [scenario_header] (the
    PWM frequency aside): counters at 10, sensor and heater initialised, the
    PID struct still zeroed, nothing sampled, no handler run. *)
Definition startup : Globals :=
  {| device := tick_init (Device.mk false 0 0 0);
     heater := heater_init scenario_header;
     pid := PID.mk PID_UNINIT PID_OK 0 0 0 0 0 0 0 0 0 0 0 0;
     sensor := sensor_init scenario_header;
     adc_reads := 0;
     calls := [] |}.

(** The [m]-th value the retry loop tests when it is entered with sample [x]
    at read position [k]: [x] itself, then the re-reads from [SAMPLE k] on. *)
Definition tested (SAMPLE : nat -> float) (x : float) (k m : nat) : float :=
  match m with
  | O => x
  | S m' => SAMPLE (m' + k)%nat
  end.

(** The heater in [HEATER_HEATING] in the ambient-timeout scenario: set point
    200, ambient timeout 30 s, ambient floor 50. *)
Definition heating (rt ovh : float) (c : HeaterCode) (temp t : float)
  : Heater.t :=
  Heater.mk HEATER_HEATING c temp 200 t 30 rt 50 ovh.

(** The regulation timer [n] ticks of [tick] seconds after it held [t]. *)
Fixpoint timer_after (tick t : float) (n : nat) : float :=
  match n with
  | O => t
  | S n' => (timer_after tick t n' + tick)%float
  end.

(** Whether a timeout of heater [h] has expired at timer value [t] with the
    heater at [temp] degrees: the ambient test, then the regulation test. *)
Definition ambient_expired (h : Heater.t) (temp t : float) : bool :=
  (temp <? Heater.ambient_temperature h)%float
  && (Heater.ambient_timeout h <? t)%float.

Definition regulation_expired (h : Heater.t) (temp t : float) : bool :=
  (temp <? Heater.setpoint h)%float
  && (Heater.regulation_timeout h <? t)%float.

(** The heater of [h] in [HEATER_HEATING] with the given code, temperature
    and timer. *)
Definition heating_with (h : Heater.t) (c : HeaterCode) (temp t : float)
  : Heater.t :=
  {| Heater.state := HEATER_HEATING;
     Heater.code := c;
     Heater.temperature := temp;
     Heater.setpoint := Heater.setpoint h;
     Heater.regulation_timer := t;
     Heater.ambient_timeout := Heater.ambient_timeout h;
     Heater.regulation_timeout := Heater.regulation_timeout h;
     Heater.ambient_temperature := Heater.ambient_temperature h;
     Heater.overheat_temperature := Heater.overheat_temperature h |}.

(** The heater states in which [heater_callback] consults the sensor. *)
Definition heater_active (st : HeaterState) : bool :=
  match st with
  | HEATER_ON | HEATER_HEATING | HEATER_AT_TEMPERATURE | HEATER_COOLING => true
  | _ => false
  end.

(** The heater states some function of the file assigns. *)
Definition heater_assigned (st : HeaterState) : bool :=
  match st with
  | HEATER_OFF | HEATER_ON | HEATER_HEATING | HEATER_SHUTDOWN => true
  | _ => false
  end.

(** The heater of [h] shut down with code [c], at [temp] degrees and timer
    value [t]. *)
Definition shut_down_with (h : Heater.t) (c : HeaterCode) (temp t : float)
  : Heater.t :=
  {| Heater.state := HEATER_SHUTDOWN;
     Heater.code := c;
     Heater.temperature := temp;
     Heater.setpoint := Heater.setpoint h;
     Heater.regulation_timer := t;
     Heater.ambient_timeout := Heater.ambient_timeout h;
     Heater.regulation_timeout := Heater.regulation_timeout h;
     Heater.ambient_temperature := Heater.ambient_temperature h;
     Heater.overheat_temperature := Heater.overheat_temperature h |}.

(** A sensor holding a confirmed reading of 250 degrees. *)
Definition sensor_at_250 : Sensor.t :=
  Sensor.set_temperature sensor_at_20 250.

(** A sensor holding a confirmed reading of 120 degrees. *)
Definition sensor_at_120 : Sensor.t :=
  Sensor.set_temperature sensor_at_20 120.

(** Sensors that agree on every field but [previous_temp]. *)
Definition same_but_previous_temp (s s' : Sensor.t) : Prop :=
  Sensor.set_previous_temp s' 0 = Sensor.set_previous_temp s 0.

(** Heaters that agree on every field but [code]. *)
Definition same_but_code (h h' : Heater.t) : Prop :=
  Heater.set_code h' HEATER_OK = Heater.set_code h HEATER_OK.

(** The configuration of the sensor: the fields only [sensor_init] writes. *)
Definition sensor_config (s : Sensor.t) : Z * Z * (float * float * float) :=
  (Sensor.samples_per_reading s, Sensor.retries s,
   (Sensor.variance s, Sensor.disconnect_temperature s,
    Sensor.no_power_temperature s)).

(** The configuration of the heater: the set point and the fields only
    [heater_init] writes. *)
Definition heater_config (h : Heater.t)
  : float * (float * float) * (float * float) :=
  (Heater.setpoint h,
   (Heater.ambient_timeout h, Heater.regulation_timeout h),
   (Heater.ambient_temperature h, Heater.overheat_temperature h)).

(** Whether the sensor is sampling: [sensor_callback] returns at once in the
    two other states. *)
Definition sensor_running (st : SensorState) : bool :=
  match st with
  | SENSOR_HAS_NO_DATA | SENSOR_HAS_DATA => true
  | _ => false
  end.

(** The invariant of a running heater with a window longer than its period:
    the counters are in range, the sensor has no data and has taken no more
    samples than timer periods have passed since the last 100 ms boundary. *)
Definition starved (g : Globals) : Prop :=
  1 <= Device.tick_100ms_count (device g) <= 10 /\
  1 <= Device.tick_1sec_count (device g) <= 10 /\
  0 <= Sensor.samples (sensor g) /\
  Sensor.samples (sensor g) + Device.tick_100ms_count (device g) <= 10 /\
  10 < Sensor.samples_per_reading (sensor g) /\
  SensorState_eqb (Sensor.state (sensor g)) SENSOR_HAS_DATA = false /\
  heater_active (Heater.state (heater g)) = true.

(** [startup] once [heater_turn_on] has run. *)
Definition startup_heater_on : Globals :=
  {| device := device startup;
     heater := snd (heater_turn_on scenario_header (heater startup));
     pid := pid startup;
     sensor := sensor startup;
     adc_reads := 0;
     calls := [] |}.

(** [startup_heater_on] with a window of 16 samples. *)
Definition startup_long_window : Globals :=
  {| device := device startup;
     heater := heater startup_heater_on;
     pid := pid startup;
     sensor := Sensor.mk SENSOR_HAS_NO_DATA SENSOR_OK 16 0 3 (-273.15) 0 0
                 20 400 (-50);
     adc_reads := 0;
     calls := [] |}.

(** A sensor shut down three samples into a window. *)
Definition sensor_shut_down : Sensor.t :=
  Sensor.set_state sensor_mid_window SENSOR_SHUTDOWN.

(** The heater heating, 12.5 s into regulation, while the sensor is shut
    down. *)
Definition heating_sensor_shut_down : Globals :=
  {| device := device startup;
     heater := heating 300 300 HEATER_OK 20 12.5;
     pid := pid startup;
     sensor := sensor_shut_down;
     adc_reads := 40;
     calls := [] |}.

(** The static data with a timer interrupt pending. *)
Definition startup_tick_pending : Globals :=
  with_device startup (TIMER0_OVF_vect (device startup)).

(** Communication handlers that leave the static data alone: one that asks
    for the dispatch loop to restart, one that lets it continue. *)
Definition kinen_busy (g : Globals) : StatusCode * Globals := (SC_EAGAIN, g).
Definition kinen_idle (g : Globals) : StatusCode * Globals := (SC_NOOP, g).

(** A device array of four bytes. *)
Definition four_bytes : list Z := [17; 34; 51; 68].



(** * Properties *)

(** ** Order of binary64 numbers

    The comparisons of primitive floats are those of [SpecFloat]
    ([ltb_spec], [leb_spec]); the facts used below are proved there. *)
Section FloatOrder.

Lemma SFcompare_antisym (x y : spec_float) :
  SFcompare y x =
  match SFcompare x y with Some c => Some (CompOpp c) | None => None end.
Proof.
  destruct x as [sx|sx| |sx mx ex], y as [sy|sy| |sy my ey]; simpl;
    try destruct sx; try destruct sy; simpl; try reflexivity.
  all: rewrite (Z.compare_antisym ex ey);
    destruct (ex ?= ey)%Z; simpl; try reflexivity.
  all: change (Pos.compare_cont Eq my mx) with (Pos.compare my mx);
    change (Pos.compare_cont Eq mx my) with (Pos.compare mx my);
    rewrite (Pos.compare_antisym mx my);
    destruct (mx ?= my)%positive; reflexivity.
Qed.

Lemma SFleb_trans (x y z : spec_float) :
  SFleb x y = true -> SFleb y z = true -> SFleb x z = true.
Proof.
  unfold SFleb.
  destruct x as [sx|sx| |sx mx ex], y as [sy|sy| |sy my ey],
           z as [sz|sz| |sz mz ez]; simpl;
    try destruct sx; try destruct sy; try destruct sz; simpl;
    try congruence.
  all: change (Pos.compare_cont Eq ?a ?b) with (Pos.compare a b).
  all: destruct (Z.compare_spec ex ey), (Z.compare_spec ey ez),
         (Z.compare_spec ex ez); simpl; try congruence; try lia.
  all: subst.
  all: destruct (Pos.compare_spec mx my), (Pos.compare_spec my mz),
         (Pos.compare_spec mx mz); simpl; try congruence; try lia.
Qed.

Lemma float_ltb_asym (a b : float) :
  (a <? b)%float = true -> (b <? a)%float = false.
Proof.
  rewrite !ltb_spec. unfold SFltb.
  rewrite (SFcompare_antisym (Prim2SF a) (Prim2SF b)).
  destruct (SFcompare (Prim2SF a) (Prim2SF b)) as [[ | | ]|];
    simpl; congruence.
Qed.

Lemma float_leb_not_ltb (a b : float) :
  (a <=? b)%float = true -> (b <? a)%float = false.
Proof.
  rewrite leb_spec, ltb_spec. unfold SFleb, SFltb.
  rewrite (SFcompare_antisym (Prim2SF a) (Prim2SF b)).
  destruct (SFcompare (Prim2SF a) (Prim2SF b)) as [[ | | ]|];
    simpl; congruence.
Qed.

Lemma float_leb_trans (a b c : float) :
  (a <=? b)%float = true -> (b <=? c)%float = true ->
  (a <=? c)%float = true.
Proof. rewrite !leb_spec. apply SFleb_trans. Qed.

End FloatOrder.

(** ** The heater under a cold sensor *)

(** One call of [heater_callback] with the sensor holding 20 degrees. *)
Section ColdTick.

Variable hdr : Header.
Hypothesis tick_seconds : HEATER_TICK_SECONDS hdr = 0.1%float.

Variable s : Sensor.t.
Hypothesis sensor_has_data : Sensor.state s = SENSOR_HAS_DATA.
Hypothesis sensor_reads_20 : Sensor.temperature s = 20%float.

Variables rt ovh : float.
Hypothesis regulation_after_ambient : (30 <=? rt)%float = true.

Lemma on_tick (c : HeaterCode) (temp t : float) :
  heater_callback hdr (s, Heater.mk HEATER_ON c temp 200 t 30 rt 50 ovh)
  = (HEATER_OK, (Sensor.set_samples s 0, heating rt ovh HEATER_OK 20 0)).
Proof.
  unfold heater_callback, heating, sensor_get_state, sensor_get_temperature,
    sensor_start_temperature_reading; simpl.
  rewrite sensor_has_data; simpl. rewrite sensor_reads_20. reflexivity.
Qed.

Lemma heating_tick_within (c : HeaterCode) (temp t : float) :
  (t + 0.1 <=? 30)%float = true ->
  heater_callback hdr (s, heating rt ovh c temp t)
  = (HEATER_OK,
     (Sensor.set_samples s 0, heating rt ovh HEATER_OK 20 (t + 0.1))).
Proof.
  intros Hle.
  assert (Ha : (30 <? t + 0.1)%float = false)
    by (apply float_leb_not_ltb; exact Hle).
  assert (Hr : (rt <? t + 0.1)%float = false)
    by (apply float_leb_not_ltb;
        apply float_leb_trans with (b := 30%float); assumption).
  unfold heater_callback, heating, sensor_get_state, sensor_get_temperature,
    sensor_start_temperature_reading; simpl.
  rewrite sensor_has_data; simpl.
  rewrite sensor_reads_20, tick_seconds, Ha, Hr.
  rewrite !andb_false_r. reflexivity.
Qed.

Lemma heating_tick_beyond (c : HeaterCode) (temp t : float) :
  (30 <? t + 0.1)%float = true ->
  heater_callback hdr (s, heating rt ovh c temp t)
  = (HEATER_AMBIENT_TIMED_OUT,
     (Sensor.set_samples s 0,
      Heater.mk HEATER_SHUTDOWN HEATER_AMBIENT_TIMED_OUT 20 200 (t + 0.1)
        30 rt 50 ovh)).
Proof.
  intros Hlt.
  unfold heater_callback, heating, sensor_get_state, sensor_get_temperature,
    sensor_start_temperature_reading; simpl.
  rewrite sensor_has_data; simpl.
  rewrite sensor_reads_20, tick_seconds, Hlt. reflexivity.
Qed.

End ColdTick.

Lemma all_within_le (n k : nat) :
  (k <= n)%nat -> all_within n = true -> all_within k = true.
Proof.
  induction 1 as [|n Hle IH]; [trivial|].
  intros H. apply IH. simpl in H. apply andb_prop in H. tauto.
Qed.

(** The run of the scenario: [k] ticks into [HEATER_HEATING] the timer holds
    [accrued k], as long as it stays within the ambient timeout. *)
Lemma cold_run (hdr : Header) (s : Sensor.t) (rt ovh : float)
  (c : HeaterCode) (temp t : float) (k : nat) :
  HEATER_TICK_SECONDS hdr = 0.1%float ->
  Sensor.state s = SENSOR_HAS_DATA ->
  Sensor.temperature s = 20%float ->
  (30 <=? rt)%float = true ->
  all_within k = true ->
  heater_ticks hdr (S k) (s, Heater.mk HEATER_ON c temp 200 t 30 rt 50 ovh)
  = (Sensor.set_samples s 0, heating rt ovh HEATER_OK 20 (accrued k)).
Proof.
  intros Htick Hs Ht Hrt. induction k as [|k IH]; intros Hk.
  - cbn [heater_ticks]. rewrite on_tick by assumption. reflexivity.
  - change (heater_ticks hdr (S (S k)) ?x)
      with (snd (heater_callback hdr (heater_ticks hdr (S k) x))).
    simpl in Hk. apply andb_prop in Hk. destruct Hk as [Hk Hle].
    rewrite IH by exact Hk.
    rewrite heating_tick_within; try assumption; reflexivity.
Qed.

(** C1, as the code has it.  From [HEATER_ON] with set point 200, ambient
    floor 50, ambient timeout 30 s, a regulation timeout not below it, a tick
    of 0.1 s and the sensor holding a confirmed 20 degrees at every tick: the
    heater is in [HEATER_HEATING] with code [HEATER_OK] after each of the
    ticks 1 to 300, and in [HEATER_SHUTDOWN] with code
    [HEATER_AMBIENT_TIMED_OUT] after exactly 301 ticks.  The first tick only
    moves [HEATER_ON] to [HEATER_HEATING] and zeroes the timer, the timeout
    test is strict, and the 300 binary64 additions of 0.1 give
    30.000000000000156. *)
Theorem heater_ambient_timeout_at_tick_301 :
  forall (hdr : Header) (s : Sensor.t) (rt ovh : float)
         (c : HeaterCode) (temp t : float),
    HEATER_TICK_SECONDS hdr = 0.1%float ->
    Sensor.state s = SENSOR_HAS_DATA ->
    Sensor.temperature s = 20%float ->
    (30 <=? rt)%float = true ->
    let h := Heater.mk HEATER_ON c temp 200 t 30 rt 50 ovh in
    (forall n : nat, (1 <= n <= 300)%nat ->
       Heater.state (snd (heater_ticks hdr n (s, h))) = HEATER_HEATING /\
       Heater.code (snd (heater_ticks hdr n (s, h))) = HEATER_OK) /\
    Heater.state (snd (heater_ticks hdr 301 (s, h))) = HEATER_SHUTDOWN /\
    Heater.code (snd (heater_ticks hdr 301 (s, h)))
      = HEATER_AMBIENT_TIMED_OUT.
Proof.
  intros hdr s rt ovh c temp t Htick Hs Ht Hrt h.
  assert (H299 : all_within 299 = true) by (vm_compute; reflexivity).
  split.
  - intros n [Hlo Hhi]. destruct n as [|k]; [lia|].
    unfold h. rewrite cold_run; try assumption.
    + split; reflexivity.
    + apply all_within_le with (n := 299%nat); [lia | exact H299].
  - change (heater_ticks hdr 301 (s, h))
      with (snd (heater_callback hdr (heater_ticks hdr 300 (s, h)))).
    assert (H300 : (30 <? accrued 299 + 0.1)%float = true)
      by (vm_compute; reflexivity).
    unfold h. rewrite cold_run by assumption.
    rewrite heating_tick_beyond by assumption.
    split; reflexivity.
Qed.

Lemma heater_ambient_timeout_at_tick_301_witness :
  (forall n : nat, (1 <= n <= 300)%nat ->
     Heater.state (snd (heater_ticks scenario_header n
                          (sensor_at_20, heater_just_on))) = HEATER_HEATING /\
     Heater.code (snd (heater_ticks scenario_header n
                         (sensor_at_20, heater_just_on))) = HEATER_OK) /\
  Heater.state (snd (heater_ticks scenario_header 301
                       (sensor_at_20, heater_just_on))) = HEATER_SHUTDOWN /\
  Heater.code (snd (heater_ticks scenario_header 301
                      (sensor_at_20, heater_just_on)))
    = HEATER_AMBIENT_TIMED_OUT.
Proof.
  apply (heater_ambient_timeout_at_tick_301 scenario_header sensor_at_20
           300 300 HEATER_OK 0 0); reflexivity.
Defined.

(** C1 as stated fails: in the scenario the heater is still in
    [HEATER_HEATING], with no fault code, after 300 ticks. *)
Lemma heater_still_heating_at_tick_300 :
  Heater.state (snd (heater_ticks scenario_header 300
                       (sensor_at_20, heater_just_on))) = HEATER_HEATING /\
  Heater.code (snd (heater_ticks scenario_header 300
                      (sensor_at_20, heater_just_on))) = HEATER_OK.
Proof. vm_compute. split; reflexivity. Qed.

(** ** The heater once shut down *)

Lemma shutdown_tick (hdr : Header) (s : Sensor.t) (h : Heater.t) :
  Heater.state h = HEATER_SHUTDOWN ->
  heater_callback hdr (s, h) = (HEATER_OK, (s, Heater.set_code h HEATER_OK)).
Proof.
  intros Hs. unfold heater_callback. cbn [Heater.state Heater.set_code].
  rewrite Hs. reflexivity.
Qed.

(** C4, as the code has it.  Once the heater is in [HEATER_SHUTDOWN], every
    further 100 ms tick leaves the state [HEATER_SHUTDOWN] and every other
    field of the heater and the sensor as they were, except the code: the
    first statement of [heater_callback] sets it to [HEATER_OK], so from the
    first further tick on the code is [HEATER_OK], whatever fault it held. *)
Theorem heater_shutdown_persists_code_reset :
  forall (hdr : Header) (s : Sensor.t) (h : Heater.t) (n : nat),
    Heater.state h = HEATER_SHUTDOWN ->
    (1 <= n)%nat ->
    heater_ticks hdr n (s, h) = (s, Heater.set_code h HEATER_OK) /\
    Heater.state (snd (heater_ticks hdr n (s, h))) = HEATER_SHUTDOWN /\
    Heater.code (snd (heater_ticks hdr n (s, h))) = HEATER_OK.
Proof.
  intros hdr s h n Hs Hn.
  assert (E : heater_ticks hdr n (s, h) = (s, Heater.set_code h HEATER_OK)).
  { destruct n as [|n]; [lia|]. clear Hn.
    induction n as [|n IH].
    - cbn [heater_ticks]. rewrite shutdown_tick by exact Hs. reflexivity.
    - change (heater_ticks hdr (S (S n)) ?x)
        with (snd (heater_callback hdr (heater_ticks hdr (S n) x))).
      rewrite IH. rewrite shutdown_tick by exact Hs. reflexivity. }
  rewrite E. cbn [snd Heater.state Heater.code Heater.set_code].
  auto.
Qed.

Lemma heater_shutdown_persists_code_reset_witness :
  heater_ticks scenario_header 5 (sensor_at_20, heater_timed_out)
    = (sensor_at_20, Heater.set_code heater_timed_out HEATER_OK) /\
  Heater.state (snd (heater_ticks scenario_header 5
                       (sensor_at_20, heater_timed_out))) = HEATER_SHUTDOWN /\
  Heater.code (snd (heater_ticks scenario_header 5
                      (sensor_at_20, heater_timed_out))) = HEATER_OK.
Proof.
  apply (heater_shutdown_persists_code_reset scenario_header sensor_at_20
           heater_timed_out 5); [reflexivity | lia].
Defined.

(** C4 as stated fails: the heater shut down with [HEATER_AMBIENT_TIMED_OUT]
    (as it is after tick 301 of the scenario) has code [HEATER_OK] after one
    more tick. *)
Lemma heater_fault_code_lost_on_next_tick :
  Heater.state heater_timed_out = HEATER_SHUTDOWN /\
  Heater.code heater_timed_out = HEATER_AMBIENT_TIMED_OUT /\
  snd (heater_ticks scenario_header 301 (sensor_at_20, heater_just_on))
    = heater_timed_out /\
  Heater.state (snd (heater_ticks scenario_header 1
                       (sensor_at_20, heater_timed_out))) = HEATER_SHUTDOWN /\
  Heater.code (snd (heater_ticks scenario_header 1
                      (sensor_at_20, heater_timed_out))) = HEATER_OK.
Proof. vm_compute. repeat split; reflexivity. Qed.

(** ** [heater_turn_on] *)

(** C8.  Called in [HEATER_SHUTDOWN], [heater_turn_on] returns [SC_OK] and
    leaves the heater as [heater_init] makes it, but in state [HEATER_ON]: the
    code is cleared, the timer, temperature and set point are zero, and the
    timeouts and thresholds are the configured constants.  Called in
    [HEATER_UNINIT] it returns [SC_ERROR] and changes nothing. *)
Theorem heater_turn_on_shutdown_uninit :
  forall (hdr : Header) (h : Heater.t),
    (Heater.state h = HEATER_SHUTDOWN ->
       heater_turn_on hdr h
         = (SC_OK,
            {| Heater.state := HEATER_ON;
               Heater.code := HEATER_OK;
               Heater.temperature := 0;
               Heater.setpoint := 0;
               Heater.regulation_timer := 0;
               Heater.ambient_timeout := HEATER_AMBIENT_TIMEOUT hdr;
               Heater.regulation_timeout := HEATER_REGULATION_TIMEOUT hdr;
               Heater.ambient_temperature := HEATER_AMBIENT_TEMPERATURE hdr;
               Heater.overheat_temperature :=
                 HEATER_OVERHEAT_TEMPERATURE hdr |})) /\
    (Heater.state h = HEATER_UNINIT ->
       heater_turn_on hdr h = (SC_ERROR, h)).
Proof.
  intros hdr h. unfold heater_turn_on.
  split; intros ->; reflexivity.
Qed.

Lemma heater_turn_on_shutdown_uninit_witness :
  heater_turn_on scenario_header heater_timed_out
    = (SC_OK,
       {| Heater.state := HEATER_ON;
          Heater.code := HEATER_OK;
          Heater.temperature := 0;
          Heater.setpoint := 0;
          Heater.regulation_timer := 0;
          Heater.ambient_timeout := 30;
          Heater.regulation_timeout := 300;
          Heater.ambient_temperature := 50;
          Heater.overheat_temperature := 300 |}) /\
  heater_turn_on scenario_header Heater.zero = (SC_ERROR, Heater.zero).
Proof.
  split.
  - apply (proj1 (heater_turn_on_shutdown_uninit scenario_header
                    heater_timed_out)); reflexivity.
  - apply (proj2 (heater_turn_on_shutdown_uninit scenario_header
                    Heater.zero)); reflexivity.
Defined.

(** C10.  Called in [HEATER_ON], [HEATER_HEATING] or [HEATER_AT_TEMPERATURE],
    [heater_turn_on] returns [SC_OK] and leaves every field of the heater,
    the state, the code and the regulation timer among them, unchanged. *)
Theorem heater_turn_on_when_running :
  forall (hdr : Header) (h : Heater.t),
    Heater.state h = HEATER_ON \/
    Heater.state h = HEATER_HEATING \/
    Heater.state h = HEATER_AT_TEMPERATURE ->
    heater_turn_on hdr h = (SC_OK, h).
Proof.
  intros hdr h H. unfold heater_turn_on.
  destruct H as [-> | [-> | ->]]; reflexivity.
Qed.

Lemma heater_turn_on_when_running_witness :
  heater_turn_on scenario_header (heating 300 300 HEATER_OK 20 12.5)
    = (SC_OK, heating 300 300 HEATER_OK 20 12.5).
Proof.
  apply (heater_turn_on_when_running scenario_header
           (heating 300 300 HEATER_OK 20 12.5)).
  right; left; reflexivity.
Defined.

(** ** [sensor_get_temperature] *)

(** C9.  In [SENSOR_HAS_DATA] the accessor returns [sensor.temperature]; in
    each of the three other states it returns the constant
    [SURFACE_OF_THE_SUN]; and, unless the stored temperature is that constant
    itself, it returns the stored temperature exactly when the state is
    [SENSOR_HAS_DATA]. *)
Theorem sensor_get_temperature_by_state :
  forall (hdr : Header) (s : Sensor.t),
    (Sensor.state s = SENSOR_HAS_DATA ->
       sensor_get_temperature hdr s = Sensor.temperature s) /\
    (Sensor.state s = SENSOR_UNINIT \/
     Sensor.state s = SENSOR_HAS_NO_DATA \/
     Sensor.state s = SENSOR_SHUTDOWN ->
       sensor_get_temperature hdr s = SURFACE_OF_THE_SUN hdr) /\
    (Sensor.temperature s <> SURFACE_OF_THE_SUN hdr ->
       (sensor_get_temperature hdr s = Sensor.temperature s <->
        Sensor.state s = SENSOR_HAS_DATA)).
Proof.
  intros hdr s. unfold sensor_get_temperature.
  split; [|split].
  - intros ->; reflexivity.
  - intros [-> | [-> | ->]]; reflexivity.
  - intros Hne. destruct (Sensor.state s); cbn [SensorState_eqb]; split;
      intros H; try reflexivity; try discriminate;
      exfalso; apply Hne; symmetry; exact H.
Qed.

Lemma sensor_get_temperature_by_state_witness :
  sensor_get_temperature scenario_header sensor_at_20 = 20%float /\
  sensor_get_temperature scenario_header
    (Sensor.set_state sensor_at_20 SENSOR_HAS_NO_DATA) = 5505%float /\
  (sensor_get_temperature scenario_header sensor_at_20
     = Sensor.temperature sensor_at_20 <->
   Sensor.state sensor_at_20 = SENSOR_HAS_DATA).
Proof.
  split; [|split].
  - apply (proj1 (sensor_get_temperature_by_state scenario_header
                    sensor_at_20)); reflexivity.
  - apply (proj1 (proj2 (sensor_get_temperature_by_state scenario_header
                    (Sensor.set_state sensor_at_20 SENSOR_HAS_NO_DATA)))).
    right; left; reflexivity.
  - apply (proj2 (proj2 (sensor_get_temperature_by_state scenario_header
                    sensor_at_20))).
    intros H.
    apply (f_equal (fun x : float => (x <? 100)%float)) in H.
    vm_compute in H. discriminate H.
Defined.

(** ** [pid_calc] *)

(** X2.  The output of [pid_calc] is never above the macro [MAX] nor below
    the macro [MIN], whatever [pid.max] and [pid.min] hold. *)
Lemma pid_calc_within_MAX_MIN (p : PID.t) (setpoint temperature : float) :
  (MAX <? fst (pid_calc p setpoint temperature))%float = false /\
  (fst (pid_calc p setpoint temperature) <? MIN)%float = false.
Proof.
  unfold pid_calc.
  repeat match goal with
         | |- context [if ?c then _ else _] =>
             let E := fresh "E" in destruct c eqn:E
         end;
    cbn [fst PID.output PID.set_output PID.set_prev_error] in *;
    split; solve [reflexivity | assumption].
Qed.

(** C6.  A call of [pid_calc] leaves [prev_error] equal to the new error
    [setpoint - temperature]; it leaves [integral] unchanged when the absolute
    error is below [epsilon] (and whenever it is not above it), and adds
    [error * dt] to it when the absolute error is above [epsilon]. *)
Theorem pid_calc_integral_and_prev_error :
  forall (p : PID.t) (setpoint temperature : float),
    let e := (setpoint - temperature)%float in
    let p' := snd (pid_calc p setpoint temperature) in
    PID.prev_error p' = e /\
    ((fabs e <? epsilon)%float = true ->
       PID.integral p' = PID.integral p) /\
    ((epsilon <? fabs e)%float = false ->
       PID.integral p' = PID.integral p) /\
    ((epsilon <? fabs e)%float = true ->
       PID.integral p' = (PID.integral p + e * dt)%float).
Proof.
  intros p setpoint temperature e p'.
  assert (H : PID.prev_error p' = e /\
              PID.integral p' =
              if (epsilon <? fabs e)%float
              then (PID.integral p + e * dt)%float else PID.integral p).
  { unfold p', e, pid_calc.
    cbn [PID.error PID.set_error].
    destruct (epsilon <? fabs (setpoint - temperature))%float eqn:E0;
      repeat match goal with
             | |- context [if ?c then _ else _] => destruct c
             end;
      split; reflexivity. }
  destruct H as [Hprev Hint].
  split; [exact Hprev|]. rewrite Hint.
  split; [|split].
  - intros Hlt. rewrite (float_ltb_asym _ _ Hlt). reflexivity.
  - intros ->. reflexivity.
  - intros ->. reflexivity.
Qed.

Lemma pid_calc_integral_and_prev_error_witness :
  PID.integral (snd (pid_calc pid_configured 200 199.995))
    = PID.integral pid_configured /\
  PID.integral (snd (pid_calc pid_configured 200 200))
    = PID.integral pid_configured /\
  PID.integral (snd (pid_calc pid_configured 200 20))
    = (PID.integral pid_configured + (200 - 20) * dt)%float.
Proof.
  split; [|split].
  - apply (proj1 (proj2 (pid_calc_integral_and_prev_error
                           pid_configured 200 199.995))).
    vm_compute; reflexivity.
  - apply (proj1 (proj2 (proj2 (pid_calc_integral_and_prev_error
                                  pid_configured 200 200)))).
    vm_compute; reflexivity.
  - apply (proj2 (proj2 (proj2 (pid_calc_integral_and_prev_error
                                  pid_configured 200 20)))).
    vm_compute; reflexivity.
Defined.

(** C5 on the code.  With the bounds configured as [min = 0] and [max = 100],
    a large negative error makes [pid_calc] return [-4], below [pid.min], and
    a large positive error makes it return [4], short of [pid.max]: the
    routine clamps to the macros [MAX] and [MIN], not to [pid.max] and
    [pid.min]. *)
Theorem pid_calc_ignores_configured_bounds :
  PID.min pid_configured = 0%float /\
  PID.max pid_configured = 100%float /\
  fst (pid_calc pid_configured 20 200) = (-4)%float /\
  (fst (pid_calc pid_configured 20 200) <? PID.min pid_configured)%float
    = true /\
  fst (pid_calc pid_configured 200 20) = 4%float /\
  (fst (pid_calc pid_configured 200 20) <? PID.max pid_configured)%float
    = true.
Proof. vm_compute. repeat split; reflexivity. Qed.


(** ** The sampling window of [sensor_callback] *)

Ltac sensor_cbn :=
  cbn [Sensor.state Sensor.code Sensor.samples_per_reading Sensor.samples
       Sensor.retries Sensor.temperature Sensor.previous_temp
       Sensor.accumulator Sensor.variance Sensor.disconnect_temperature
       Sensor.no_power_temperature
       Sensor.set_state Sensor.set_code Sensor.set_samples
       Sensor.set_temperature Sensor.set_previous_temp Sensor.set_accumulator
       sample_loop Nat.pred fst snd].

Lemma sum_window_S (SAMPLE : nat -> float) (k n : nat) :
  sum_samples (window SAMPLE k (S n))
  = (sum_samples (window SAMPLE k n) + SAMPLE (n + k)%nat)%float.
Proof.
  unfold sum_samples, window.
  rewrite seq_S, map_app, fold_left_app. cbn [map fold_left].
  rewrite (Nat.add_comm k n). reflexivity.
Qed.

Lemma window_length (SAMPLE : nat -> float) (k n : nat) :
  length (window SAMPLE k n) = n.
Proof. unfold window. rewrite length_map. apply length_seq. Qed.

Lemma u8_incr_of_nat (n : nat) :
  (n < 255)%nat -> u8_incr (Z.of_nat n) = Z.of_nat (S n).
Proof.
  intros H. unfold u8_incr. rewrite Z.mod_small by lia. lia.
Qed.

Section Window.

Variable hdr : Header.
Variable SAMPLE : nat -> float.

(** The window starts from sensor [s] at the [k]-th evaluation of [SAMPLE]
    and takes [N] samples. *)
Variable s : Sensor.t.
Variables k N : nat.

Hypothesis sensor_running :
  Sensor.state s = SENSOR_HAS_NO_DATA \/ Sensor.state s = SENSOR_HAS_DATA.
Hypothesis fresh_window : Sensor.samples s = 0.
Hypothesis samples_required : Sensor.samples_per_reading s = Z.of_nat N.
Hypothesis window_size : (1 <= N <= 255)%nat.

(** The samples are in bounds: none is above [SURFACE_OF_THE_SUN], each is
    within the variance of the one before, and the filter has a retry budget
    to test it with. *)
Hypothesis retry_budget : (2 <= N)%nat -> 1 <= Sensor.retries s.
Hypothesis not_a_fault : forall j : nat, (j < N)%nat ->
  (SURFACE_OF_THE_SUN hdr <? SAMPLE (j + k)%nat)%float = false.
Hypothesis within_variance : forall j : nat, (S j < N)%nat ->
  (fabs (SAMPLE (S j + k)%nat - SAMPLE (j + k)%nat) <? Sensor.variance s)%float
  = true.

Lemma window_open :
  SensorState_eqb (Sensor.state s) SENSOR_UNINIT
  || SensorState_eqb (Sensor.state s) SENSOR_SHUTDOWN = false.
Proof. destruct sensor_running as [-> | ->]; reflexivity. Qed.

Lemma first_call_more :
  (2 <= N)%nat ->
  sensor_callback hdr SAMPLE (s, k)
  = (SENSOR_OK, (in_window SAMPLE s k 1, S k)).
Proof.
  intros H2. pose proof window_open as Hst.
  pose proof (not_a_fault 0%nat) as H0.
  unfold sensor_callback, _sensor_sample, in_window.
  destruct s as [st cd spr smp rt tmp prev acc var disc nop]; cbn in *; subst.
  rewrite Hst. cbn. rewrite H0 by lia.
  replace (1 <? Z.of_nat N) with true by (symmetry; apply Z.ltb_lt; lia).
  reflexivity.
Qed.

Lemma first_call_done :
  N = 1%nat ->
  sensor_callback hdr SAMPLE (s, k)
  = (Sensor.code (reading_done hdr s 1 (SAMPLE k)
                    (sum_samples (window SAMPLE k 1))),
     (reading_done hdr s 1 (SAMPLE k) (sum_samples (window SAMPLE k 1)),
      S k)).
Proof.
  intros H1. pose proof window_open as Hst.
  pose proof (not_a_fault 0%nat) as H0.
  unfold sensor_callback, _sensor_sample, reading_done.
  destruct s as [st cd spr smp rt tmp prev acc var disc nop]; cbn in *; subst.
  rewrite Hst. cbn. rewrite H0 by lia.
  destruct (SENSOR_DISCONNECTED_TEMPERATURE hdr <? _)%float; [reflexivity|].
  destruct (_ <? SENSOR_NO_POWER_TEMPERATURE hdr)%float; reflexivity.
Qed.

Lemma retries_positive (n : nat) :
  (1 <= n)%nat -> (S n <= N)%nat ->
  exists r, Z.to_nat (Sensor.retries s) = S r.
Proof.
  intros. exists (Nat.pred (Z.to_nat (Sensor.retries s))).
  assert (1 <= Sensor.retries s) by (apply retry_budget; lia). lia.
Qed.

Lemma later_call_more (n : nat) :
  (1 <= n)%nat -> (S n < N)%nat ->
  sensor_callback hdr SAMPLE (in_window SAMPLE s k n, (n + k)%nat)
  = (SENSOR_OK, (in_window SAMPLE s k (S n), (S n + k)%nat)).
Proof.
  intros H1 H2. pose proof window_open as Hst.
  pose proof (not_a_fault n) as H0.
  destruct (retries_positive n) as [r Hr]; [lia..|].
  destruct n as [|j]; [lia|].
  pose proof (within_variance j) as Hv.
  unfold sensor_callback, _sensor_sample, in_window.
  sensor_cbn. rewrite Hst.
  replace (Z.of_nat (S j) =? 0) with false
    by (symmetry; apply Z.eqb_neq; lia).
  sensor_cbn. rewrite Hr. sensor_cbn.
  rewrite Hv by lia. rewrite H0 by lia. sensor_cbn.
  rewrite u8_incr_of_nat by lia. rewrite samples_required.
  replace (Z.of_nat (S (S j)) <? Z.of_nat N) with true
    by (symmetry; apply Z.ltb_lt; lia).
  rewrite <- sum_window_S. reflexivity.
Qed.

Lemma later_call_done (n : nat) :
  (1 <= n)%nat -> S n = N ->
  sensor_callback hdr SAMPLE (in_window SAMPLE s k n, (n + k)%nat)
  = (Sensor.code (reading_done hdr s (Z.of_nat (S n)) (SAMPLE (n + k)%nat)
                    (sum_samples (window SAMPLE k (S n)))),
     (reading_done hdr s (Z.of_nat (S n)) (SAMPLE (n + k)%nat)
        (sum_samples (window SAMPLE k (S n))), (S n + k)%nat)).
Proof.
  intros H1 H2. pose proof window_open as Hst.
  pose proof (not_a_fault n) as H0.
  destruct (retries_positive n) as [r Hr]; [lia..|].
  destruct n as [|j]; [lia|].
  pose proof (within_variance j) as Hv.
  unfold sensor_callback, _sensor_sample, in_window, reading_done.
  sensor_cbn. rewrite Hst.
  replace (Z.of_nat (S j) =? 0) with false
    by (symmetry; apply Z.eqb_neq; lia).
  sensor_cbn. rewrite Hr. sensor_cbn.
  rewrite Hv by lia. rewrite H0 by lia. sensor_cbn.
  rewrite u8_incr_of_nat by lia. rewrite samples_required, <- H2.
  rewrite Z.ltb_irrefl. rewrite <- sum_window_S.
  destruct (SENSOR_DISCONNECTED_TEMPERATURE hdr <? _)%float; [reflexivity|].
  destruct (_ <? SENSOR_NO_POWER_TEMPERATURE hdr)%float; reflexivity.
Qed.

(** While the window is open, each call returns [SENSOR_OK] and the sensor is
    [in_window]. *)
Lemma window_run (n : nat) :
  (1 <= n)%nat -> (n < N)%nat ->
  sensor_ticks hdr SAMPLE n (s, k)
  = (repeat SENSOR_OK n, (in_window SAMPLE s k n, (n + k)%nat)).
Proof.
  intros H1 H2. destruct n as [|n]; [lia|]. clear H1.
  induction n as [|n IH].
  - cbn [sensor_ticks]. rewrite first_call_more by lia. reflexivity.
  - change (sensor_ticks hdr SAMPLE (S (S n)) (s, k))
      with (let (codes, sk') := sensor_ticks hdr SAMPLE (S n) (s, k) in
            let (c, sk'') := sensor_callback hdr SAMPLE sk' in
            (c :: codes, sk'')).
    rewrite IH by lia. rewrite later_call_more by lia. reflexivity.
Qed.

(** The call that closes the window. *)
Lemma window_closed :
  sensor_ticks hdr SAMPLE N (s, k)
  = (Sensor.code (reading_done hdr s (Z.of_nat N)
                    (SAMPLE (Nat.pred N + k)%nat)
                    (sum_samples (window SAMPLE k N)))
       :: repeat SENSOR_OK (Nat.pred N),
     (reading_done hdr s (Z.of_nat N) (SAMPLE (Nat.pred N + k)%nat)
        (sum_samples (window SAMPLE k N)), (N + k)%nat)).
Proof.
  destruct (Nat.eq_dec N 1) as [E1 | E1].
  - rewrite E1. cbn [sensor_ticks].
    rewrite first_call_done by assumption. reflexivity.
  - remember (Nat.pred N) as n eqn:En.
    assert (E : N = S n) by lia. rewrite E.
    change (sensor_ticks hdr SAMPLE (S n) (s, k))
      with (let (codes, sk') := sensor_ticks hdr SAMPLE n (s, k) in
            let (c, sk'') := sensor_callback hdr SAMPLE sk' in
            (c :: codes, sk'')).
    rewrite window_run by lia. rewrite later_call_done by lia. reflexivity.
Qed.

End Window.

(** C3.  Let the sensor be running ([SENSOR_HAS_NO_DATA] or
    [SENSOR_HAS_DATA]) with [samples = 0] and [samples_per_reading = N],
    [1 <= N <= 255], and let the next [N] raw samples be in bounds: none above
    [SURFACE_OF_THE_SUN], each within [variance] of the one before, the retry
    budget not zero when [N >= 2].  Then each of the first [N - 1] calls of
    [sensor_callback] returns [SENSOR_OK] and leaves the state and the
    confirmed temperature as they were; after the [N]-th call [N] samples have
    been read, the confirmed temperature is their arithmetic mean [m], and the
    sensor is in [SENSOR_HAS_NO_DATA] with code [SENSOR_DISCONNECTED] if
    [m > SENSOR_DISCONNECTED_TEMPERATURE], else in [SENSOR_HAS_NO_DATA] with
    code [SENSOR_NO_POWER] if [m < SENSOR_NO_POWER_TEMPERATURE], else in
    [SENSOR_HAS_DATA] with code [SENSOR_OK]. *)
Theorem sensor_window_mean :
  forall (hdr : Header) (SAMPLE : nat -> float) (s : Sensor.t) (k N : nat),
    Sensor.state s = SENSOR_HAS_NO_DATA \/ Sensor.state s = SENSOR_HAS_DATA ->
    Sensor.samples s = 0 ->
    Sensor.samples_per_reading s = Z.of_nat N ->
    (1 <= N <= 255)%nat ->
    ((2 <= N)%nat -> 1 <= Sensor.retries s) ->
    (forall j : nat, (j < N)%nat ->
       (SURFACE_OF_THE_SUN hdr <? SAMPLE (j + k)%nat)%float = false) ->
    (forall j : nat, (S j < N)%nat ->
       (fabs (SAMPLE (S j + k)%nat - SAMPLE (j + k)%nat)
        <? Sensor.variance s)%float = true) ->
    let m := mean (window SAMPLE k N) in
    let after n := fst (snd (sensor_ticks hdr SAMPLE n (s, k))) in
    (forall n : nat, (n < N)%nat ->
       fst (sensor_ticks hdr SAMPLE n (s, k)) = repeat SENSOR_OK n /\
       Sensor.state (after n) = Sensor.state s /\
       Sensor.temperature (after n) = Sensor.temperature s) /\
    snd (snd (sensor_ticks hdr SAMPLE N (s, k))) = (N + k)%nat /\
    Sensor.temperature (after N) = m /\
    ((SENSOR_DISCONNECTED_TEMPERATURE hdr <? m)%float = true ->
       Sensor.state (after N) = SENSOR_HAS_NO_DATA /\
       Sensor.code (after N) = SENSOR_DISCONNECTED) /\
    ((SENSOR_DISCONNECTED_TEMPERATURE hdr <? m)%float = false ->
     (m <? SENSOR_NO_POWER_TEMPERATURE hdr)%float = true ->
       Sensor.state (after N) = SENSOR_HAS_NO_DATA /\
       Sensor.code (after N) = SENSOR_NO_POWER) /\
    ((SENSOR_DISCONNECTED_TEMPERATURE hdr <? m)%float = false ->
     (m <? SENSOR_NO_POWER_TEMPERATURE hdr)%float = false ->
       Sensor.state (after N) = SENSOR_HAS_DATA /\
       Sensor.code (after N) = SENSOR_OK).
Proof.
  intros hdr SAMPLE s k N Hrun Hfresh Hspr HN Hretry Hsun Hvar m after.
  split.
  - intros n Hn. unfold after. destruct n as [|n].
    + cbn. auto.
    + rewrite (window_run hdr SAMPLE s k N) by (assumption || lia).
      cbn. auto.
  - unfold after.
    rewrite (window_closed hdr SAMPLE s k N) by assumption.
    cbn [fst snd]. unfold reading_done.
    fold (mean (window SAMPLE k N)) in m.
    assert (Em : (sum_samples (window SAMPLE k N)
                  / double_of_u8 (Z.of_nat N))%float = m).
    { unfold m, mean. rewrite window_length. reflexivity. }
    rewrite Em.
    split; [reflexivity|].
    destruct (SENSOR_DISCONNECTED_TEMPERATURE hdr <? m)%float;
      [|destruct (m <? SENSOR_NO_POWER_TEMPERATURE hdr)%float];
      cbn; repeat split; intros; try reflexivity; discriminate.
Qed.

Tactic Notation "below" integer(n) :=
  let j := fresh "j" in let Hj := fresh "Hj" in
  intros j Hj; do n (destruct j as [|j]; [reflexivity|]); lia.

Lemma sensor_window_mean_witness :
  (Sensor.temperature
     (fst (snd (sensor_ticks scenario_header ramp 8
                  (sensor_init scenario_header, 0%nat))))
   = mean (window ramp 0 8) /\
   Sensor.state
     (fst (snd (sensor_ticks scenario_header ramp 8
                  (sensor_init scenario_header, 0%nat))))
   = SENSOR_HAS_DATA) /\
  Sensor.code
    (fst (snd (sensor_ticks scenario_header steady_450 8
                 (sensor_init scenario_header, 0%nat))))
  = SENSOR_DISCONNECTED /\
  Sensor.code
    (fst (snd (sensor_ticks scenario_header steady_minus_100 8
                 (sensor_init scenario_header, 0%nat))))
  = SENSOR_NO_POWER.
Proof.
  split; [|split].
  - destruct (sensor_window_mean scenario_header ramp
                (sensor_init scenario_header) 0 8)
      as (_ & _ & Htemp & _ & _ & Hdata);
      [left; reflexivity | reflexivity | reflexivity | lia
      | intros _; vm_compute; discriminate | below 8 | below 7 | ].
    split; [exact Htemp|].
    apply Hdata; vm_compute; reflexivity.
  - destruct (sensor_window_mean scenario_header steady_450
                (sensor_init scenario_header) 0 8)
      as (_ & _ & _ & Hdisc & _);
      [left; reflexivity | reflexivity | reflexivity | lia
      | intros _; vm_compute; discriminate | below 8 | below 7 | ].
    apply Hdisc; vm_compute; reflexivity.
  - destruct (sensor_window_mean scenario_header steady_minus_100
                (sensor_init scenario_header) 0 8)
      as (_ & _ & _ & _ & Hnop & _);
      [left; reflexivity | reflexivity | reflexivity | lia
      | intros _; vm_compute; discriminate | below 8 | below 7 | ].
    apply Hnop; vm_compute; reflexivity.
Defined.

(** ** The tick dispatcher *)

Ltac device_cbn :=
  cbn [device calls with_device negb
       Device.tick_flag Device.tick_100ms_count Device.tick_1sec_count
       Device.pwm_freq Device.set_tick_flag Device.set_tick_100ms_count
       Device.set_tick_1sec_count].

Section Cadence.

Variable hdr : Header.
Variable SAMPLE : nat -> float.

Lemma tick_10ms_frame (g : Globals) :
  device (tick_10ms hdr SAMPLE g) = device g /\
  calls (tick_10ms hdr SAMPLE g) = Tick10ms :: calls g.
Proof.
  unfold tick_10ms, log. cbn [sensor adc_reads device calls heater pid].
  destruct (sensor_callback hdr SAMPLE (sensor g, adc_reads g)) as [c [s k]].
  split; reflexivity.
Qed.

Lemma tick_100ms_frame (g : Globals) :
  device (tick_100ms hdr g) = device g /\
  calls (tick_100ms hdr g) = Tick100ms :: calls g.
Proof.
  unfold tick_100ms, log. cbn [sensor adc_reads device calls heater pid].
  destruct (heater_callback hdr (sensor g, heater g)) as [c [s h]].
  split; reflexivity.
Qed.

Lemma u8_decr_small (c : Z) : 1 <= c <= 10 -> u8_decr c = c - 1.
Proof. intros H. unfold u8_decr. apply Z.mod_small. lia. Qed.

(** One timer period, by the value of the two counters. *)
Lemma tick_period_step (g : Globals) :
  let c := Device.tick_100ms_count (device g) in
  let d := Device.tick_1sec_count (device g) in
  1 <= c <= 10 -> 1 <= d <= 10 ->
  let g' := tick_period hdr SAMPLE g in
  Device.tick_flag (device g') = false /\
  (c <> 1 ->
     Device.tick_100ms_count (device g') = c - 1 /\
     Device.tick_1sec_count (device g') = d /\
     calls g' = Tick10ms :: calls g) /\
  (c = 1 -> d <> 1 ->
     Device.tick_100ms_count (device g') = 10 /\
     Device.tick_1sec_count (device g') = d - 1 /\
     calls g' = Tick100ms :: Tick10ms :: calls g) /\
  (c = 1 -> d = 1 ->
     Device.tick_100ms_count (device g') = 10 /\
     Device.tick_1sec_count (device g') = 10 /\
     calls g' = Tick1sec :: Tick100ms :: Tick10ms :: calls g).
Proof.
  intros c d Hc Hd g'.
  unfold g', tick_period, tick_callback, TIMER0_OVF_vect.
  device_cbn. cbv zeta.
  match goal with
  | |- context [tick_10ms hdr SAMPLE ?x] =>
      destruct (tick_10ms_frame x) as [D1 C1];
      set (g1 := tick_10ms hdr SAMPLE x) in *
  end.
  device_cbn. cbn [device calls with_device] in D1, C1.
  rewrite D1. device_cbn.
  fold c d. rewrite (u8_decr_small c Hc).
  destruct (Z.eqb_spec (c - 1) 0) as [E|E]; cbn [negb snd].
  - match goal with
    | |- context [tick_100ms hdr ?x] =>
        destruct (tick_100ms_frame x) as [D2 C2];
        set (g2 := tick_100ms hdr x) in *
    end.
    device_cbn. cbn [device calls with_device] in D2, C2.
    rewrite D2. device_cbn.
    fold d. rewrite (u8_decr_small d Hd).
    destruct (Z.eqb_spec (d - 1) 0) as [F|F]; cbn [negb snd].
    + unfold tick_1sec, log. device_cbn.
      rewrite C2, C1. repeat split; intros; try reflexivity; lia.
    + device_cbn.
      rewrite C2, C1. repeat split; intros; try reflexivity; lia.
  - device_cbn.
    rewrite C1. repeat split; intros; try reflexivity; lia.
Qed.

Variable g : Globals.
Hypothesis count_100ms_10 : Device.tick_100ms_count (device g) = 10.
Hypothesis count_1sec_10 : Device.tick_1sec_count (device g) = 10.

Lemma cadence_invariant (n : nat) :
  Device.tick_100ms_count (device (tick_periods hdr SAMPLE n g))
    = 10 - Z.of_nat (n mod 10) /\
  Device.tick_1sec_count (device (tick_periods hdr SAMPLE n g))
    = 10 - Z.of_nat ((n / 10) mod 10) /\
  runs Tick10ms (tick_periods hdr SAMPLE n g) = (runs Tick10ms g + n)%nat /\
  runs Tick100ms (tick_periods hdr SAMPLE n g)
    = (runs Tick100ms g + n / 10)%nat /\
  runs Tick1sec (tick_periods hdr SAMPLE n g)
    = (runs Tick1sec g + n / 100)%nat.
Proof.
  induction n as [|n IH].
  - cbn [tick_periods]. rewrite count_100ms_10, count_1sec_10.
    cbn. repeat split; lia.
  - cbn [tick_periods].
    set (gn := tick_periods hdr SAMPLE n g) in *.
    destruct IH as (Ic & Id & I10 & I100 & I1).
    pose proof (Nat.mod_upper_bound n 10 ltac:(lia)) as Bc.
    pose proof (Nat.mod_upper_bound (n / 10) 10 ltac:(lia)) as Bd.
    destruct (tick_period_step gn) as (_ & S1 & S2 & S3); [lia | lia |].
    destruct (Z.eq_dec (Device.tick_100ms_count (device gn)) 1) as [Ec|Ec];
      [destruct (Z.eq_dec (Device.tick_1sec_count (device gn)) 1) as [Ed|Ed]|].
    + destruct (S3 Ec Ed) as (Hc & Hd & Hcalls).
      rewrite Hc, Hd.
      unfold runs in *. rewrite Hcalls. cbn [filter Handler_eqb length].
      rewrite Ic in Ec. rewrite Id in Ed.
      zify. Z.div_mod_to_equations. lia.
    + destruct (S2 Ec Ed) as (Hc & Hd & Hcalls).
      rewrite Hc, Hd.
      unfold runs in *. rewrite Hcalls. cbn [filter Handler_eqb length].
      rewrite Ic in Ec. rewrite Id in Ed |- *.
      zify. Z.div_mod_to_equations. lia.
    + destruct (S1 Ec) as (Hc & Hd & Hcalls).
      rewrite Hc, Hd.
      unfold runs in *. rewrite Hcalls. cbn [filter Handler_eqb length].
      rewrite Ic in Ec |- *. rewrite Id.
      zify. Z.div_mod_to_equations. lia.
Qed.
End Cadence.

(** C7.  Starting with both counters at 10 and the timer interrupt firing
    before each call of [tick_callback]: the 10 ms handler runs in every call;
    the 100 ms handler does not run in the first 9 calls and has run exactly
    once after 10; the 1 s handler does not run in the first 99 calls and has
    run exactly once after 100; in general they have run [n / 10] and
    [n / 100] times after [n] calls.  After every call both counters lie in
    [1, 10] (so within [0, 10]): the 100 ms counter is [10 - n mod 10] and the
    1 s counter [10 - (n / 10) mod 10], back at 10 each time the decrement
    reaches 0. *)
Theorem tick_cadence :
  forall (hdr : Header) (SAMPLE : nat -> float) (g : Globals),
    Device.tick_100ms_count (device g) = 10 ->
    Device.tick_1sec_count (device g) = 10 ->
    let after n := tick_periods hdr SAMPLE n g in
    (forall n : nat, runs Tick10ms (after n) = (runs Tick10ms g + n)%nat) /\
    (forall n : nat, (n < 10)%nat ->
       runs Tick100ms (after n) = runs Tick100ms g) /\
    runs Tick100ms (after 10%nat) = (runs Tick100ms g + 1)%nat /\
    (forall n : nat, (n < 100)%nat ->
       runs Tick1sec (after n) = runs Tick1sec g) /\
    runs Tick1sec (after 100%nat) = (runs Tick1sec g + 1)%nat /\
    (forall n : nat,
       runs Tick100ms (after n) = (runs Tick100ms g + n / 10)%nat /\
       runs Tick1sec (after n) = (runs Tick1sec g + n / 100)%nat) /\
    (forall n : nat,
       Device.tick_100ms_count (device (after n)) = 10 - Z.of_nat (n mod 10) /\
       Device.tick_1sec_count (device (after n))
         = 10 - Z.of_nat ((n / 10) mod 10) /\
       1 <= Device.tick_100ms_count (device (after n)) <= 10 /\
       1 <= Device.tick_1sec_count (device (after n)) <= 10).
Proof.
  intros hdr SAMPLE g Hc Hd after.
  pose proof (cadence_invariant hdr SAMPLE g Hc Hd) as I.
  unfold after. repeat split.
  - apply I.
  - intros n Hn. destruct (I n) as (_ & _ & _ & H & _). rewrite H.
    rewrite Nat.div_small by exact Hn. lia.
  - destruct (I 10%nat) as (_ & _ & _ & H & _). exact H.
  - intros n Hn. destruct (I n) as (_ & _ & _ & _ & H). rewrite H.
    rewrite Nat.div_small by exact Hn. lia.
  - destruct (I 100%nat) as (_ & _ & _ & _ & H). exact H.
  - apply I.
  - apply I.
  - apply I.
  - apply I.
  - destruct (I n) as (H & _). rewrite H.
    pose proof (Nat.mod_upper_bound n 10). lia.
  - destruct (I n) as (H & _). rewrite H. lia.
  - destruct (I n) as (_ & H & _). rewrite H.
    pose proof (Nat.mod_upper_bound (n / 10) 10). lia.
  - destruct (I n) as (_ & H & _). rewrite H. lia.
Qed.

Lemma tick_cadence_witness :
  runs Tick100ms (tick_periods scenario_header ramp 10 startup) = 1%nat /\
  runs Tick1sec (tick_periods scenario_header ramp 100 startup) = 1%nat.
Proof.
  destruct (tick_cadence scenario_header ramp startup)
    as (_ & _ & H100 & _ & H1 & _); [reflexivity | reflexivity |].
  split; [exact H100 | exact H1].
Defined.

(** ** The variance filter of [_sensor_sample] *)

(** The retry loop entered with [i] iterations left: when the sample in hand
    and the next [i - 1] re-reads are all out of variance, the loop gives up
    after [i] re-reads.  Nothing is asked of the last re-read,
    [SAMPLE (i - 1 + k)]: it is taken and never tested. *)
Lemma sample_loop_gives_up (hdr : Header) (SAMPLE : nat -> float)
  (s : Sensor.t) (i : nat) :
  forall (x : float) (k : nat),
    (1 <= i)%nat ->
    (fabs (x - Sensor.previous_temp s) <? Sensor.variance s)%float = false ->
    (forall j : nat, (S j < i)%nat ->
       (fabs (SAMPLE (j + k)%nat - Sensor.previous_temp s)
        <? Sensor.variance s)%float = false) ->
    sample_loop hdr SAMPLE i x s k
    = (HOTTER_THAN_THE_SUN hdr, (s, (i + k)%nat)).
Proof.
  induction i as [|i IH]; intros x k Hi Hx Hrest; [lia|].
  cbn [sample_loop]. rewrite Hx.
  destruct i as [|i]; [reflexivity|].
  rewrite IH.
  - rewrite Nat.add_succ_r. reflexivity.
  - lia.
  - apply (Hrest 0%nat). lia.
  - intros j Hj. rewrite Nat.add_succ_r. apply (Hrest (S j)). lia.
Qed.

(** The retry loop returns the first tested value that is within variance,
    and records it, provided it is among the first [i] tested. *)
Lemma sample_loop_accepts (hdr : Header) (SAMPLE : nat -> float)
  (s : Sensor.t) (j : nat) :
  forall (i : nat) (x : float) (k : nat),
    (j < i)%nat ->
    (forall m : nat, (m < j)%nat ->
       (fabs (tested SAMPLE x k m - Sensor.previous_temp s)
        <? Sensor.variance s)%float = false) ->
    (fabs (tested SAMPLE x k j - Sensor.previous_temp s)
     <? Sensor.variance s)%float = true ->
    sample_loop hdr SAMPLE i x s k
    = (tested SAMPLE x k j,
       (Sensor.set_previous_temp s (tested SAMPLE x k j), (j + k)%nat)).
Proof.
  induction j as [|j IH]; intros i x k Hi Hout Hin;
    (destruct i as [|i]; [lia|]); cbn [sample_loop].
  - cbn [tested] in Hin. rewrite Hin. reflexivity.
  - pose proof (Hout 0%nat ltac:(lia)) as H0. cbn [tested] in H0.
    rewrite H0.
    rewrite (IH i (SAMPLE k) (S k)).
    + cbn [tested]. destruct j as [|j]; cbn [tested];
        rewrite ?Nat.add_succ_r; reflexivity.
    + lia.
    + intros m Hm. specialize (Hout (S m) ltac:(lia)).
      destruct m as [|m]; cbn [tested] in *;
        rewrite ?Nat.add_succ_r; exact Hout.
    + destruct j as [|j]; cbn [tested] in *;
        rewrite ?Nat.add_succ_r; exact Hin.
Qed.

(** X1.  The variance filter in full.  Let the retry budget be [R >= 1] and the
    sample not be the first of its window.  [_sensor_sample] tests the sample
    and its first [R - 1] retries, the reads [k], ..., [k + R - 1]: the first
    of them within variance of [previous_temp] is returned and recorded as
    [previous_temp]; if none is, it reads once more, the [R]-th retry, and
    returns [HOTTER_THAN_THE_SUN] without testing it, [R + 1] reads in all. *)
Theorem sensor_sample_retry_budget :
  forall (hdr : Header) (SAMPLE : nat -> float) (s : Sensor.t) (k R : nat),
    Sensor.retries s = Z.of_nat R ->
    (1 <= R)%nat ->
    (forall j : nat, (j < R)%nat ->
       (forall m : nat, (m < j)%nat ->
          (fabs (SAMPLE (m + k)%nat - Sensor.previous_temp s)
           <? Sensor.variance s)%float = false) ->
       (fabs (SAMPLE (j + k)%nat - Sensor.previous_temp s)
        <? Sensor.variance s)%float = true ->
       _sensor_sample hdr SAMPLE (s, k) false
       = (SAMPLE (j + k)%nat,
          (Sensor.set_previous_temp s (SAMPLE (j + k)%nat), S (j + k)))) /\
    ((forall m : nat, (m < R)%nat ->
        (fabs (SAMPLE (m + k)%nat - Sensor.previous_temp s)
         <? Sensor.variance s)%float = false) ->
     _sensor_sample hdr SAMPLE (s, k) false
     = (HOTTER_THAN_THE_SUN hdr, (s, S (R + k)))).
Proof.
  intros hdr SAMPLE s k R HR H1.
  assert (T : forall m : nat, tested SAMPLE (SAMPLE k) (S k) m = SAMPLE (m + k)%nat)
    by (intros [|m]; cbn [tested]; rewrite ?Nat.add_succ_r; reflexivity).
  unfold _sensor_sample. rewrite HR, Nat2Z.id. split.
  - intros j Hj Hout Hin.
    rewrite (sample_loop_accepts hdr SAMPLE s j R (SAMPLE k) (S k)).
    + rewrite T, Nat.add_succ_r. reflexivity.
    + exact Hj.
    + intros m Hm. rewrite T. apply Hout. exact Hm.
    + rewrite T. exact Hin.
  - intros Hout.
    rewrite (sample_loop_gives_up hdr SAMPLE s R (SAMPLE k) (S k)).
    + rewrite Nat.add_succ_r. reflexivity.
    + exact H1.
    + apply (Hout 0%nat). lia.
    + intros j Hj. rewrite Nat.add_succ_r. apply (Hout (S j)). lia.
Qed.

Lemma sensor_sample_retry_budget_witness :
  _sensor_sample scenario_header spike_until_second_retry
    (sensor_mid_window, 0%nat) false
  = (21%float, (Sensor.set_previous_temp sensor_mid_window 21, 3%nat)) /\
  _sensor_sample scenario_header spike_until_third_retry
    (sensor_mid_window, 0%nat) false
  = (10000%float, (sensor_mid_window, 4%nat)).
Proof.
  split.
  - apply (proj1 (sensor_sample_retry_budget scenario_header
                    spike_until_second_retry sensor_mid_window 0 3
                    eq_refl ltac:(lia)) 2%nat).
    + lia.
    + intros m Hm. do 2 (destruct m as [|m]; [reflexivity|]). lia.
    + reflexivity.
  - apply (proj2 (sensor_sample_retry_budget scenario_header
                    spike_until_third_retry sensor_mid_window 0 3
                    eq_refl ltac:(lia))).
    intros m Hm. do 3 (destruct m as [|m]; [reflexivity|]). lia.
Defined.



(** ** The heater: idle, waiting, heating *)

Lemma heater_ticks_S (hdr : Header) (n : nat) (sh : Sensor.t * Heater.t) :
  heater_ticks hdr (S n) sh = snd (heater_callback hdr (heater_ticks hdr n sh)).
Proof. reflexivity. Qed.

(** Iterating a tick that reaches a fixed point after one call. *)
Lemma heater_ticks_settled (hdr : Header) (sh sh' : Sensor.t * Heater.t) :
  snd (heater_callback hdr sh) = sh' ->
  snd (heater_callback hdr sh') = sh' ->
  forall n : nat, (1 <= n)%nat -> heater_ticks hdr n sh = sh'.
Proof.
  intros H1 H2 n Hn. destruct n as [|n]; [lia|]. clear Hn.
  induction n as [|n IH].
  - cbn [heater_ticks]. exact H1.
  - rewrite heater_ticks_S, IH. exact H2.
Qed.

(** X3.  A heater that is uninitialised or off does nothing on a tick but
    reset its code: whatever the number of ticks, its state and every other
    field stay, and the sensor is left alone (no reading is started). *)
Theorem heater_idle_ticks :
  forall (hdr : Header) (s : Sensor.t) (h : Heater.t) (n : nat),
    Heater.state h = HEATER_UNINIT \/ Heater.state h = HEATER_OFF ->
    (1 <= n)%nat ->
    heater_ticks hdr n (s, h) = (s, Heater.set_code h HEATER_OK).
Proof.
  intros hdr s h n Hst Hn.
  apply heater_ticks_settled; [| |exact Hn];
    unfold heater_callback; cbn [Heater.state Heater.set_code];
    destruct Hst as [-> | ->]; reflexivity.
Qed.

Lemma heater_idle_ticks_witness :
  heater_ticks scenario_header 7
    (sensor_mid_window, heater_init scenario_header)
  = (sensor_mid_window,
     Heater.set_code (heater_init scenario_header) HEATER_OK).
Proof.
  apply (heater_idle_ticks scenario_header sensor_mid_window
           (heater_init scenario_header) 7).
  - right; reflexivity.
  - lia.
Defined.

(** X4.  While the sensor is not in [SENSOR_HAS_DATA] (a reading in progress,
    a disconnected or unpowered thermocouple, a sensor shut down), a heater
    that is on, heating, at temperature or cooling only restarts the sensor's
    window and resets its code at each tick: its state, temperature and
    regulation timer stay as they were, so neither timeout can expire. *)
Theorem heater_waits_for_sensor_data :
  forall (hdr : Header) (s : Sensor.t) (h : Heater.t) (n : nat),
    heater_active (Heater.state h) = true ->
    SensorState_eqb (Sensor.state s) SENSOR_HAS_DATA = false ->
    (1 <= n)%nat ->
    heater_ticks hdr n (s, h)
    = (Sensor.set_samples s 0, Heater.set_code h HEATER_OK).
Proof.
  intros hdr s h n Hact Hs Hn.
  apply heater_ticks_settled; [| |exact Hn];
    unfold heater_callback, sensor_start_temperature_reading,
      sensor_get_state;
    cbn [Heater.state Heater.set_code Sensor.state Sensor.set_samples];
    rewrite Hs; destruct (Heater.state h); try discriminate Hact;
    reflexivity.
Qed.

Lemma heater_waits_for_sensor_data_witness :
  heater_ticks scenario_header 5000
    (sensor_mid_window, heating 300 300 HEATER_OK 20 12.5)
  = (Sensor.set_samples sensor_mid_window 0,
     heating 300 300 HEATER_OK 20 12.5).
Proof.
  apply (heater_waits_for_sensor_data scenario_header sensor_mid_window
           (heating 300 300 HEATER_OK 20 12.5) 5000);
    [reflexivity | reflexivity | lia].
Defined.

Lemma SensorState_eqb_eq (a b : SensorState) :
  SensorState_eqb a b = true <-> a = b.
Proof. destruct a, b; cbn; split; intros H; congruence. Qed.

(** One tick in [HEATER_HEATING] with a confirmed reading. *)
Lemma heating_tick (hdr : Header) (s : Sensor.t) (h : Heater.t) :
  Heater.state h = HEATER_HEATING ->
  Sensor.state s = SENSOR_HAS_DATA ->
  let temp := Sensor.temperature s in
  let t := (Heater.regulation_timer h + HEATER_TICK_SECONDS hdr)%float in
  heater_callback hdr (s, h)
  = if ambient_expired h temp t
    then (HEATER_AMBIENT_TIMED_OUT,
          (Sensor.set_samples s 0,
           shut_down_with h HEATER_AMBIENT_TIMED_OUT temp t))
    else if regulation_expired h temp t
    then (HEATER_REGULATION_TIMED_OUT,
          (Sensor.set_samples s 0,
           shut_down_with h HEATER_REGULATION_TIMED_OUT temp t))
    else (HEATER_OK,
          (Sensor.set_samples s 0, heating_with h HEATER_OK temp t)).
Proof.
  intros Hh Hs temp t. subst temp t.
  unfold heater_callback, sensor_start_temperature_reading, sensor_get_state,
    sensor_get_temperature, ambient_expired, regulation_expired,
    shut_down_with, heating_with.
  destruct h as [st c tp sp tm at_ rt amb ovh]. cbn in Hh. subst st.
  cbn [Heater.state Heater.set_code Heater.code Heater.temperature
       Heater.set_temperature Heater.setpoint Heater.regulation_timer
       Heater.set_regulation_timer Heater.ambient_timeout
       Heater.regulation_timeout Heater.ambient_temperature
       Heater.overheat_temperature Heater.set_state
       Sensor.state Sensor.set_samples Sensor.temperature
       HeaterState_eqb orb negb].
  rewrite Hs. cbn [SensorState_eqb negb].
  destruct (_ && _); [reflexivity|].
  destruct (_ && _); reflexivity.
Qed.

(** While no timeout has expired the heater keeps heating and the timer
    accrues the ticks. *)
Lemma heating_run (hdr : Header) (s : Sensor.t) (h : Heater.t) (n : nat) :
  Heater.state h = HEATER_HEATING ->
  Sensor.state s = SENSOR_HAS_DATA ->
  (forall j : nat, (1 <= j <= n)%nat ->
     ambient_expired h (Sensor.temperature s)
       (timer_after (HEATER_TICK_SECONDS hdr) (Heater.regulation_timer h) j)
     = false /\
     regulation_expired h (Sensor.temperature s)
       (timer_after (HEATER_TICK_SECONDS hdr) (Heater.regulation_timer h) j)
     = false) ->
  (1 <= n)%nat ->
  heater_ticks hdr n (s, h)
  = (Sensor.set_samples s 0,
     heating_with h HEATER_OK (Sensor.temperature s)
       (timer_after (HEATER_TICK_SECONDS hdr) (Heater.regulation_timer h) n)).
Proof.
  intros Hh Hs Hno Hn. destruct n as [|n]; [lia|]. clear Hn.
  induction n as [|n IH].
  - cbn [heater_ticks]. rewrite heating_tick by assumption.
    destruct (Hno 1%nat ltac:(lia)) as [Ha Hr]. cbn [timer_after] in Ha, Hr.
    rewrite Ha, Hr. reflexivity.
  - rewrite heater_ticks_S, IH by (intros j Hj; apply Hno; lia).
    rewrite heating_tick by (exact Hs || reflexivity).
    destruct (Hno (S (S n)) ltac:(lia)) as [Ha Hr].
    cbn [Sensor.temperature Sensor.set_samples heating_with
         Heater.regulation_timer].
    change (ambient_expired (heating_with h ?c ?tp ?t) ?x ?y)
      with (ambient_expired h x y).
    change (regulation_expired (heating_with h ?c ?tp ?t) ?x ?y)
      with (regulation_expired h x y).
    change (timer_after ?a ?b (S (S n)))
      with (timer_after a b (S n) + a)%float in Ha, Hr.
    rewrite Ha, Hr. reflexivity.
Qed.

(** X5.  A heater in [HEATER_HEATING] with a confirmed reading [temp] keeps
    heating, its timer advancing by one tick period per tick, as long as no
    timeout has expired; at the first tick at which one has, it shuts down:
    with [HEATER_AMBIENT_TIMED_OUT] if [temp] is below the ambient temperature
    and the timer above the ambient timeout, otherwise with
    [HEATER_REGULATION_TIMED_OUT] ([temp] below the set point and the timer
    above the regulation timeout).  The timer shown is the one of that
    tick. *)
Theorem heater_timeout_fires_once_expired :
  forall (hdr : Header) (s : Sensor.t) (h : Heater.t) (n : nat),
    Heater.state h = HEATER_HEATING ->
    Sensor.state s = SENSOR_HAS_DATA ->
    let temp := Sensor.temperature s in
    let timer j :=
      timer_after (HEATER_TICK_SECONDS hdr) (Heater.regulation_timer h) j in
    (forall j : nat, (1 <= j <= n)%nat ->
       ambient_expired h temp (timer j) = false /\
       regulation_expired h temp (timer j) = false) ->
    ((1 <= n)%nat ->
       snd (heater_ticks hdr n (s, h))
       = heating_with h HEATER_OK temp (timer n)) /\
    (ambient_expired h temp (timer (S n)) = true ->
       snd (heater_ticks hdr (S n) (s, h))
       = shut_down_with h HEATER_AMBIENT_TIMED_OUT temp (timer (S n))) /\
    (ambient_expired h temp (timer (S n)) = false ->
     regulation_expired h temp (timer (S n)) = true ->
       snd (heater_ticks hdr (S n) (s, h))
       = shut_down_with h HEATER_REGULATION_TIMED_OUT temp (timer (S n))).
Proof.
  intros hdr s h n Hh Hs temp timer Hno.
  assert (Hstep :
    snd (heater_callback hdr (heater_ticks hdr n (s, h)))
    = snd (if ambient_expired h temp (timer (S n))
           then (HEATER_AMBIENT_TIMED_OUT,
                 (Sensor.set_samples s 0,
                  shut_down_with h HEATER_AMBIENT_TIMED_OUT temp
                    (timer (S n))))
           else if regulation_expired h temp (timer (S n))
           then (HEATER_REGULATION_TIMED_OUT,
                 (Sensor.set_samples s 0,
                  shut_down_with h HEATER_REGULATION_TIMED_OUT temp
                    (timer (S n))))
           else (HEATER_OK,
                 (Sensor.set_samples s 0,
                  heating_with h HEATER_OK temp (timer (S n)))))).
  { destruct n as [|n].
    - cbn [heater_ticks]. rewrite heating_tick by assumption. reflexivity.
    - rewrite (heating_run hdr s h (S n)) by (assumption || lia).
      rewrite heating_tick by (exact Hs || reflexivity). reflexivity. }
  split; [|split].
  - intros Hn. rewrite (heating_run hdr s h n) by assumption. reflexivity.
  - intros Ha. rewrite heater_ticks_S, Hstep, Ha. reflexivity.
  - intros Ha Hr. rewrite heater_ticks_S, Hstep, Ha, Hr. reflexivity.
Qed.

Lemma heater_timeout_fires_once_expired_witness :
  snd (heater_ticks scenario_header 1
         (sensor_at_120, heating 300 300 HEATER_OK 120 299.85))
  = heating_with (heating 300 300 HEATER_OK 120 299.85) HEATER_OK 120
      (299.85 + 0.1) /\
  snd (heater_ticks scenario_header 2
         (sensor_at_120, heating 300 300 HEATER_OK 120 299.85))
  = shut_down_with (heating 300 300 HEATER_OK 120 299.85)
      HEATER_REGULATION_TIMED_OUT 120 (299.85 + 0.1 + 0.1).
Proof.
  destruct (heater_timeout_fires_once_expired scenario_header sensor_at_120
              (heating 300 300 HEATER_OK 120 299.85) 1)
    as (H1 & _ & H2); [reflexivity | reflexivity | |].
  - intros j Hj. assert (j = 1%nat) as -> by lia.
    split; vm_compute; reflexivity.
  - split.
    + apply H1. lia.
    + apply H2; vm_compute; reflexivity.
Defined.

(** X6.  A heater in [HEATER_HEATING] whose confirmed reading is below
    neither the ambient temperature nor the set point stays in
    [HEATER_HEATING] with code [HEATER_OK] at every tick, for any number of
    ticks and however hot the reading: only the timer advances.
    [overheat_temperature] is not consulted and [HEATER_AT_TEMPERATURE] is not
    entered. *)
Theorem heater_at_setpoint_never_shuts_down :
  forall (hdr : Header) (s : Sensor.t) (h : Heater.t) (n : nat),
    Heater.state h = HEATER_HEATING ->
    Sensor.state s = SENSOR_HAS_DATA ->
    (Sensor.temperature s <? Heater.ambient_temperature h)%float = false ->
    (Sensor.temperature s <? Heater.setpoint h)%float = false ->
    (1 <= n)%nat ->
    heater_ticks hdr n (s, h)
    = (Sensor.set_samples s 0,
       heating_with h HEATER_OK (Sensor.temperature s)
         (timer_after (HEATER_TICK_SECONDS hdr)
            (Heater.regulation_timer h) n)).
Proof.
  intros hdr s h n Hh Hs Ha Hr Hn.
  apply heating_run; try assumption.
  intros j _. unfold ambient_expired, regulation_expired.
  rewrite Ha, Hr. split; reflexivity.
Qed.

Lemma heater_at_setpoint_never_shuts_down_witness :
  heater_ticks scenario_header 1000
    (sensor_at_250, heating 300 240 HEATER_OK 250 0)
  = (Sensor.set_samples sensor_at_250 0,
     heating_with (heating 300 240 HEATER_OK 250 0) HEATER_OK 250
       (timer_after 0.1 0 1000)).
Proof.
  apply (heater_at_setpoint_never_shuts_down scenario_header sensor_at_250
           (heating 300 240 HEATER_OK 250 0) 1000);
    try reflexivity.
  lia.
Defined.

Lemma heater_callback_assigned (hdr : Header) (s : Sensor.t) (h : Heater.t) :
  heater_assigned (Heater.state h) = true ->
  heater_assigned (Heater.state (snd (snd (heater_callback hdr (s, h)))))
  = true.
Proof.
  intros H. unfold heater_callback.
  destruct h as [st c tp sp tm at_ rt amb ovh]. cbn in H.
  destruct st; try discriminate H; cbn;
    repeat match goal with
           | |- context [if ?c then _ else _] => destruct c; cbn
           end; reflexivity.
Qed.

Lemma heater_run_assigned (hdr : Header) (ops : list HeaterOp) :
  forall h : Heater.t,
    heater_assigned (Heater.state h) = true ->
    heater_assigned (Heater.state (heater_run hdr ops h)) = true.
Proof.
  induction ops as [|op ops IH]; intros h H; [exact H|].
  destruct op as [ | |s]; cbn [heater_run]; apply IH.
  - unfold heater_turn_on. destruct (Heater.state h) eqn:E;
      try discriminate H; cbn; try rewrite E; reflexivity.
  - unfold heater_turn_off. destruct (Heater.state h) eqn:E;
      try discriminate H; cbn; try rewrite E; reflexivity.
  - apply heater_callback_assigned. exact H.
Qed.

(** X7.  Whatever sequence of [heater_turn_on], [heater_turn_off] and ticks
    (with any sensor) follows [heater_init], the heater is in one of
    [HEATER_OFF], [HEATER_ON], [HEATER_HEATING], [HEATER_SHUTDOWN]: it never
    enters [HEATER_AT_TEMPERATURE] or [HEATER_COOLING] and never returns to
    [HEATER_UNINIT]. *)
Theorem heater_never_at_temperature_nor_cooling :
  forall (hdr : Header) (ops : list HeaterOp),
    heater_assigned (Heater.state (heater_run hdr ops (heater_init hdr)))
    = true.
Proof.
  intros hdr ops. apply heater_run_assigned. reflexivity.
Qed.

(** X8.  Turning a running heater off and on again restarts the regulation
    clock: after [heater_turn_off], [heater_turn_on] and one tick with a
    confirmed reading the heater is in [HEATER_HEATING] with
    [regulation_timer = 0], whatever the timer held, its set point and
    configured limits kept. *)
Theorem heater_off_on_restarts_timer :
  forall (hdr : Header) (s : Sensor.t) (h : Heater.t),
    Heater.state h = HEATER_ON \/ Heater.state h = HEATER_HEATING \/
    Heater.state h = HEATER_AT_TEMPERATURE ->
    Sensor.state s = SENSOR_HAS_DATA ->
    heater_run hdr [OpTurnOff; OpTurnOn; OpTick s] h
    = heating_with h HEATER_OK (Sensor.temperature s) 0.
Proof.
  intros hdr s h Hh Hs.
  destruct h as [st c tp sp tm at_ rt amb ovh]. cbn in Hh.
  unfold heating_with.
  destruct Hh as [-> | [-> | ->]];
    cbn [heater_run heater_turn_off heater_turn_on Heater.state
         Heater.set_state snd];
    unfold heater_callback, sensor_start_temperature_reading,
      sensor_get_state, sensor_get_temperature;
    cbn; rewrite Hs; reflexivity.
Qed.

Lemma heater_off_on_restarts_timer_witness :
  heater_run scenario_header [OpTurnOff; OpTurnOn; OpTick sensor_at_20]
    (heating 300 300 HEATER_OK 20 29.5)
  = heating 300 300 HEATER_OK 20 0.
Proof.
  apply (heater_off_on_restarts_timer scenario_header sensor_at_20
           (heating 300 300 HEATER_OK 20 29.5)).
  - right; left; reflexivity.
  - reflexivity.
Defined.

(** ** The dispatcher and the data it passes on *)

Lemma tick_10ms_data (hdr : Header) (SAMPLE : nat -> float) (g : Globals) :
  heater (tick_10ms hdr SAMPLE g) = heater g /\
  pid (tick_10ms hdr SAMPLE g) = pid g /\
  (sensor (tick_10ms hdr SAMPLE g), adc_reads (tick_10ms hdr SAMPLE g))
  = snd (sensor_callback hdr SAMPLE (sensor g, adc_reads g)).
Proof.
  unfold tick_10ms, log. cbn [sensor adc_reads device calls heater pid].
  destruct (sensor_callback hdr SAMPLE (sensor g, adc_reads g)) as [c [s k]].
  repeat split; reflexivity.
Qed.

Lemma tick_100ms_data (hdr : Header) (g : Globals) :
  pid (tick_100ms hdr g) = pid g /\
  adc_reads (tick_100ms hdr g) = adc_reads g /\
  (sensor (tick_100ms hdr g), heater (tick_100ms hdr g))
  = snd (heater_callback hdr (sensor g, heater g)).
Proof.
  unfold tick_100ms, log. cbn [sensor adc_reads device calls heater pid].
  destruct (heater_callback hdr (sensor g, heater g)) as [c [s h]].
  repeat split; reflexivity.
Qed.

Ltac globals_cbn :=
  cbn [device heater pid sensor adc_reads calls with_device negb fst snd
       Device.tick_flag Device.tick_100ms_count Device.tick_1sec_count
       Device.pwm_freq Device.set_tick_flag Device.set_tick_100ms_count
       Device.set_tick_1sec_count].

Lemma tick_period_data (hdr : Header) (SAMPLE : nat -> float) (g : Globals) :
  let sk := snd (sensor_callback hdr SAMPLE (sensor g, adc_reads g)) in
  let g' := tick_period hdr SAMPLE g in
  pid g' = pid g /\
  adc_reads g' = snd sk /\
  Device.pwm_freq (device g') = Device.pwm_freq (device g) /\
  (sensor g', heater g')
  = if u8_decr (Device.tick_100ms_count (device g)) =? 0
    then snd (heater_callback hdr (fst sk, heater g))
    else (fst sk, heater g).
Proof.
  intros sk g'. unfold g', tick_period, tick_callback, TIMER0_OVF_vect.
  globals_cbn. cbv zeta.
  match goal with
  | |- context [tick_10ms hdr SAMPLE ?x] =>
      destruct (tick_10ms_frame hdr SAMPLE x) as [D1 _];
      destruct (tick_10ms_data hdr SAMPLE x) as (H1 & P1 & S1);
      set (g1 := tick_10ms hdr SAMPLE x) in *
  end.
  globals_cbn. cbn [device heater pid sensor adc_reads with_device]
    in D1, H1, P1, S1.
  fold sk in S1.
  assert (K1 : adc_reads g1 = snd sk) by (rewrite <- S1; reflexivity).
  assert (S1' : sensor g1 = fst sk) by (rewrite <- S1; reflexivity).
  clear S1. rename S1' into S1.
  rewrite D1. globals_cbn.
  destruct (u8_decr (Device.tick_100ms_count (device g)) =? 0).
  - globals_cbn.
    match goal with
    | |- context [tick_100ms hdr ?x] =>
        destruct (tick_100ms_frame hdr x) as [D2 _];
        destruct (tick_100ms_data hdr x) as (P2 & K2 & S2);
        set (g2 := tick_100ms hdr x) in *
    end.
    globals_cbn. cbn [device heater pid sensor adc_reads with_device]
      in D2, P2, K2, S2.
    rewrite S1, H1 in S2.
    rewrite D2. globals_cbn.
    destruct (u8_decr (Device.tick_1sec_count (device g)) =? 0);
      globals_cbn; unfold tick_1sec, log; globals_cbn;
      rewrite ?D2; globals_cbn; rewrite P2, P1, K2, K1, S2; auto.
  - globals_cbn. rewrite ?D1. globals_cbn. rewrite P1, K1, S1, H1. auto.
Qed.

(** ** The sensor: stopped, giving up, averaging on *)

Lemma sensor_ticks_S (hdr : Header) (SAMPLE : nat -> float) (n : nat)
  (sk : Sensor.t * nat) :
  snd (sensor_ticks hdr SAMPLE (S n) sk)
  = snd (sensor_callback hdr SAMPLE (snd (sensor_ticks hdr SAMPLE n sk))).
Proof.
  cbn [sensor_ticks].
  destruct (sensor_ticks hdr SAMPLE n sk) as [codes sk'].
  cbn [snd].
  destruct (sensor_callback hdr SAMPLE sk') as [c sk'']. reflexivity.
Qed.

(** X9.  A sensor that is uninitialised or shut down stays as it is: each call
    of [sensor_callback] resets the code to [SENSOR_OK] and returns before
    the ADC is read.  After any number of calls (at least one) the state, the
    sample count, the accumulator and the temperature are what they were, the
    code is [SENSOR_OK] (the [SENSOR_BAD_READINGS] of a shut-down is gone),
    and no sample has been taken. *)
Theorem sensor_stopped_ticks :
  forall (hdr : Header) (SAMPLE : nat -> float) (s : Sensor.t) (k n : nat),
    Sensor.state s = SENSOR_UNINIT \/ Sensor.state s = SENSOR_SHUTDOWN ->
    (1 <= n)%nat ->
    snd (sensor_ticks hdr SAMPLE n (s, k))
    = (Sensor.set_code s SENSOR_OK, k).
Proof.
  intros hdr SAMPLE s k n Hst Hn.
  assert (H1 : forall s0 : Sensor.t, Sensor.state s0 = Sensor.state s ->
            snd (sensor_callback hdr SAMPLE (s0, k))
            = (Sensor.set_code s0 SENSOR_OK, k)).
  { intros s0 E. unfold sensor_callback.
    cbn [Sensor.state Sensor.set_code]. rewrite E.
    destruct Hst as [-> | ->]; reflexivity. }
  destruct n as [|n]; [lia|]. clear Hn.
  induction n as [|n IH].
  - rewrite sensor_ticks_S. cbn [sensor_ticks snd]. apply H1. reflexivity.
  - rewrite sensor_ticks_S, IH. rewrite H1 by reflexivity. reflexivity.
Qed.

Lemma sensor_stopped_ticks_witness :
  snd (sensor_ticks scenario_header steady_450 25 (sensor_shut_down, 4%nat))
  = (Sensor.set_code sensor_shut_down SENSOR_OK, 4%nat).
Proof.
  apply (sensor_stopped_ticks scenario_header steady_450 sensor_shut_down
           4 25).
  - right; reflexivity.
  - lia.
Defined.

Lemma sample_loop_frame (hdr : Header) (SAMPLE : nat -> float)
  (s : Sensor.t) (i : nat) :
  forall (x : float) (k : nat),
    same_but_previous_temp s (fst (snd (sample_loop hdr SAMPLE i x s k))).
Proof.
  induction i as [|i IH]; intros x k; cbn [sample_loop].
  - reflexivity.
  - destruct (_ <? _)%float; [reflexivity | apply IH].
Qed.

Lemma sensor_sample_frame (hdr : Header) (SAMPLE : nat -> float)
  (s : Sensor.t) (k : nat) (new_period : bool) :
  same_but_previous_temp s
    (fst (snd (_sensor_sample hdr SAMPLE (s, k) new_period))).
Proof.
  unfold _sensor_sample. destruct new_period;
    [reflexivity | apply sample_loop_frame].
Qed.

(** X10.  Inside a window (at least one sample taken), with a retry budget
    [R] and [SURFACE_OF_THE_SUN] below [HOTTER_THAN_THE_SUN]: when the [R]
    samples read first all differ from the previous accepted sample by the
    variance bound or more, one call of [sensor_callback] reads [R + 1]
    samples, puts the sensor in [SENSOR_SHUTDOWN] with code
    [SENSOR_BAD_READINGS] and returns that code; the sample count, the
    accumulator, the temperature and the previous sample are untouched.
    With a budget of 0 the one sample read is not tested at all. *)
Theorem sensor_gives_up_shuts_down :
  forall (hdr : Header) (SAMPLE : nat -> float) (s : Sensor.t) (k R : nat),
    sensor_running (Sensor.state s) = true ->
    Sensor.samples s <> 0 ->
    Sensor.retries s = Z.of_nat R ->
    (SURFACE_OF_THE_SUN hdr <? HOTTER_THAN_THE_SUN hdr)%float = true ->
    (forall m : nat, (m < R)%nat ->
       (fabs (SAMPLE (m + k)%nat - Sensor.previous_temp s)
        <? Sensor.variance s)%float = false) ->
    sensor_callback hdr SAMPLE (s, k)
    = (SENSOR_BAD_READINGS,
       (Sensor.set_code (Sensor.set_state s SENSOR_SHUTDOWN)
          SENSOR_BAD_READINGS,
        S (R + k))).
Proof.
  intros hdr SAMPLE s k R Hrun Hmid HR Hsun Hout.
  assert (E : _sensor_sample hdr SAMPLE (Sensor.set_code s SENSOR_OK, k) false
              = (HOTTER_THAN_THE_SUN hdr,
                 (Sensor.set_code s SENSOR_OK, S (R + k)))).
  { destruct R as [|R].
    - unfold _sensor_sample. cbn [Sensor.retries Sensor.set_code].
      rewrite HR. reflexivity.
    - unfold _sensor_sample. cbn [Sensor.retries Sensor.set_code].
      rewrite HR, Nat2Z.id.
      rewrite (sample_loop_gives_up hdr SAMPLE (Sensor.set_code s SENSOR_OK)
                 (S R) (SAMPLE k) (S k)).
      + rewrite Nat.add_succ_r. reflexivity.
      + lia.
      + apply (Hout 0%nat). lia.
      + intros j Hj. rewrite Nat.add_succ_r. apply (Hout (S j)). lia. }
  unfold sensor_callback.
  cbn [Sensor.state Sensor.set_code Sensor.samples].
  replace (Sensor.samples s =? 0) with false
    by (symmetry; apply Z.eqb_neq; exact Hmid).
  replace (SensorState_eqb (Sensor.state s) SENSOR_UNINIT
           || SensorState_eqb (Sensor.state s) SENSOR_SHUTDOWN) with false
    by (destruct (Sensor.state s); try discriminate Hrun; reflexivity).
  rewrite E, Hsun. destruct s; reflexivity.
Qed.

Lemma sensor_gives_up_shuts_down_witness :
  sensor_callback scenario_header steady_450 (sensor_mid_window, 0%nat)
  = (SENSOR_BAD_READINGS,
     (Sensor.set_code (Sensor.set_state sensor_mid_window SENSOR_SHUTDOWN)
        SENSOR_BAD_READINGS, 4%nat)).
Proof.
  apply (sensor_gives_up_shuts_down scenario_header steady_450
           sensor_mid_window 0 3).
  - reflexivity.
  - discriminate.
  - reflexivity.
  - reflexivity.
  - below 3.
Defined.

Lemma reading_done_fields (hdr : Header) (s : Sensor.t) (n : Z)
  (p a : float) :
  sensor_running (Sensor.state (reading_done hdr s n p a)) = true /\
  Sensor.samples (reading_done hdr s n p a) = n /\
  Sensor.previous_temp (reading_done hdr s n p a) = p /\
  Sensor.accumulator (reading_done hdr s n p a) = a /\
  Sensor.temperature (reading_done hdr s n p a)
  = (a / double_of_u8 n)%float /\
  sensor_config (reading_done hdr s n p a) = sensor_config s.
Proof.
  unfold reading_done.
  destruct (SENSOR_DISCONNECTED_TEMPERATURE hdr <? _)%float;
    [|destruct (_ <? SENSOR_NO_POWER_TEMPERATURE hdr)%float];
    repeat split; reflexivity.
Qed.

Lemma reading_done_again (hdr : Header) (s : Sensor.t) (n n' : Z)
  (p a p' a' : float) :
  reading_done hdr (reading_done hdr s n p a) n' p' a'
  = reading_done hdr s n' p' a'.
Proof.
  unfold reading_done at 1 3.
  pose proof (reading_done_fields hdr s n p a) as (_ & _ & _ & _ & _ & C).
  unfold sensor_config in C. injection C as C1 C2 C3 C4 C5.
  rewrite C1, C2, C3, C4, C5. reflexivity.
Qed.

(** A call that takes an in-bounds sample when the window is already full:
    the reading is closed again over one sample more. *)
Lemma sensor_call_closing (hdr : Header) (SAMPLE : nat -> float)
  (s0 : Sensor.t) (k n : nat) :
  sensor_running (Sensor.state s0) = true ->
  Sensor.samples s0 = Z.of_nat n ->
  (1 <= n < 255)%nat ->
  Sensor.samples_per_reading s0 <= Z.of_nat (S n) ->
  1 <= Sensor.retries s0 ->
  (fabs (SAMPLE k - Sensor.previous_temp s0) <? Sensor.variance s0)%float
  = true ->
  (SURFACE_OF_THE_SUN hdr <? SAMPLE k)%float = false ->
  snd (sensor_callback hdr SAMPLE (s0, k))
  = (reading_done hdr s0 (Z.of_nat (S n)) (SAMPLE k)
       (Sensor.accumulator s0 + SAMPLE k), S k).
Proof.
  intros Hrun Hn Hrange Hspr Hret Hvar Hsun.
  destruct s0 as [st cd spr smp rt tmp prev acc var disc nop].
  cbn [Sensor.state Sensor.samples Sensor.samples_per_reading Sensor.retries
       Sensor.previous_temp Sensor.variance Sensor.accumulator]
    in Hrun, Hn, Hspr, Hret, Hvar |- *.
  subst smp.
  unfold sensor_callback, _sensor_sample, reading_done.
  sensor_cbn.
  replace (SensorState_eqb st SENSOR_UNINIT
           || SensorState_eqb st SENSOR_SHUTDOWN) with false
    by (destruct st; try discriminate Hrun; reflexivity).
  replace (Z.of_nat n =? 0) with false by (symmetry; apply Z.eqb_neq; lia).
  sensor_cbn.
  destruct (Z.to_nat rt) as [|r] eqn:Er; [lia|].
  sensor_cbn. rewrite Hvar, Hsun. sensor_cbn.
  rewrite u8_incr_of_nat by lia.
  replace (Z.of_nat (S n) <? spr) with false
    by (symmetry; apply Z.ltb_ge; lia).
  destruct (SENSOR_DISCONNECTED_TEMPERATURE hdr <? _)%float; [reflexivity|].
  destruct (_ <? SENSOR_NO_POWER_TEMPERATURE hdr)%float; reflexivity.
Qed.

Section RunningMean.

Variable hdr : Header.
Variable SAMPLE : nat -> float.
Variable s : Sensor.t.
Variables k N : nat.

Hypothesis sensor_is_running :
  Sensor.state s = SENSOR_HAS_NO_DATA \/ Sensor.state s = SENSOR_HAS_DATA.
Hypothesis fresh_window : Sensor.samples s = 0.
Hypothesis samples_required : Sensor.samples_per_reading s = Z.of_nat N.
Hypothesis window_size : (1 <= N)%nat.

Lemma running_mean_run (M : nat) :
  (N <= M <= 255)%nat ->
  ((2 <= M)%nat -> 1 <= Sensor.retries s) ->
  (forall j : nat, (j < M)%nat ->
     (SURFACE_OF_THE_SUN hdr <? SAMPLE (j + k)%nat)%float = false) ->
  (forall j : nat, (S j < M)%nat ->
     (fabs (SAMPLE (S j + k)%nat - SAMPLE (j + k)%nat)
      <? Sensor.variance s)%float = true) ->
  snd (sensor_ticks hdr SAMPLE M (s, k))
  = (reading_done hdr s (Z.of_nat M) (SAMPLE (Nat.pred M + k)%nat)
       (sum_samples (window SAMPLE k M)), (M + k)%nat).
Proof.
  intros [HNM HM]. induction HNM as [|M HNM IH]; intros Hretry Hsun Hvar.
  - rewrite (window_closed hdr SAMPLE s k N); try assumption;
      [reflexivity | lia].
  - rewrite sensor_ticks_S, IH;
      [ | lia | intros; apply Hretry; lia | intros; apply Hsun; lia
        | intros; apply Hvar; lia ].
    pose proof (reading_done_fields hdr s (Z.of_nat M)
                  (SAMPLE (Nat.pred M + k)%nat)
                  (sum_samples (window SAMPLE k M)))
      as (F1 & F2 & F3 & F4 & _ & F6).
    unfold sensor_config in F6. injection F6 as C1 C2 C3 C4 C5.
    rewrite (sensor_call_closing hdr SAMPLE _ (M + k) M).
    + rewrite reading_done_again, F4, <- sum_window_S. reflexivity.
    + exact F1.
    + exact F2.
    + lia.
    + rewrite C1, samples_required. lia.
    + rewrite C2. apply Hretry. lia.
    + rewrite F3, C3.
      destruct M as [|M']; [lia|]. cbn [Nat.pred]. apply Hvar. lia.
    + apply Hsun. lia.
Qed.

End RunningMean.

(** X11.  The window does not close by itself.  From a fresh window of [N]
    samples, [M >= N] calls of [sensor_callback] ([M <= 255]) on samples that
    each pass the variance test and none of which exceeds
    [SURFACE_OF_THE_SUN] leave the sensor with [M] samples counted, their sum
    in the accumulator and their mean as the temperature: until
    [sensor_start_temperature_reading] is called the reading is the mean of
    every sample since the window opened, not of the last [N]. *)
Theorem sensor_running_mean :
  forall (hdr : Header) (SAMPLE : nat -> float) (s : Sensor.t) (k N M : nat),
    Sensor.state s = SENSOR_HAS_NO_DATA \/ Sensor.state s = SENSOR_HAS_DATA ->
    Sensor.samples s = 0 ->
    Sensor.samples_per_reading s = Z.of_nat N ->
    (1 <= N <= M)%nat ->
    (M <= 255)%nat ->
    ((2 <= M)%nat -> 1 <= Sensor.retries s) ->
    (forall j : nat, (j < M)%nat ->
       (SURFACE_OF_THE_SUN hdr <? SAMPLE (j + k)%nat)%float = false) ->
    (forall j : nat, (S j < M)%nat ->
       (fabs (SAMPLE (S j + k)%nat - SAMPLE (j + k)%nat)
        <? Sensor.variance s)%float = true) ->
    let s' := fst (snd (sensor_ticks hdr SAMPLE M (s, k))) in
    Sensor.temperature s' = mean (window SAMPLE k M) /\
    Sensor.accumulator s' = sum_samples (window SAMPLE k M) /\
    Sensor.samples s' = Z.of_nat M /\
    sensor_running (Sensor.state s') = true /\
    snd (snd (sensor_ticks hdr SAMPLE M (s, k))) = (M + k)%nat.
Proof.
  intros hdr SAMPLE s k N M Hrun Hfresh Hspr HN HM Hretry Hsun Hvar s'.
  unfold s'.
  rewrite (running_mean_run hdr SAMPLE s k N) by (assumption || lia).
  cbn [fst snd].
  pose proof (reading_done_fields hdr s (Z.of_nat M)
                (SAMPLE (Nat.pred M + k)%nat)
                (sum_samples (window SAMPLE k M)))
    as (F1 & F2 & F3 & F4 & F5 & _).
  rewrite F5. unfold mean. rewrite window_length. auto.
Qed.

Lemma sensor_running_mean_witness :
  Sensor.temperature
    (fst (snd (sensor_ticks scenario_header ramp 12
                 (sensor_init scenario_header, 0%nat))))
  = mean (window ramp 0 12).
Proof.
  apply (sensor_running_mean scenario_header ramp
           (sensor_init scenario_header) 0 8 12);
    [left; reflexivity | reflexivity | reflexivity | lia | lia
    | intros _; vm_compute; discriminate | below 12 | below 11].
Defined.

(** ** What a call keeps *)

Lemma same_but_previous_temp_fields (s s' : Sensor.t) :
  same_but_previous_temp s s' ->
  Sensor.state s' = Sensor.state s /\
  Sensor.code s' = Sensor.code s /\
  Sensor.samples s' = Sensor.samples s /\
  Sensor.temperature s' = Sensor.temperature s /\
  Sensor.accumulator s' = Sensor.accumulator s /\
  sensor_config s' = sensor_config s.
Proof.
  unfold same_but_previous_temp. intros E.
  destruct s, s'. cbn in E. injection E as -> -> -> -> -> -> -> -> -> ->.
  repeat split; reflexivity.
Qed.

(** What [sensor_callback] can do to the state, the sample count and the
    configuration. *)
Lemma sensor_callback_outcome (hdr : Header) (SAMPLE : nat -> float)
  (s : Sensor.t) (k : nat) :
  let s' := fst (snd (sensor_callback hdr SAMPLE (s, k))) in
  sensor_config s' = sensor_config s /\
  ((sensor_running (Sensor.state s) = false /\
    Sensor.state s' = Sensor.state s /\
    Sensor.samples s' = Sensor.samples s /\
    snd (snd (sensor_callback hdr SAMPLE (s, k))) = k) \/
   (sensor_running (Sensor.state s) = true /\
    Sensor.state s' = SENSOR_SHUTDOWN /\
    Sensor.samples s' = Sensor.samples s) \/
   (sensor_running (Sensor.state s) = true /\
    Sensor.samples s' = u8_incr (Sensor.samples s) /\
    sensor_running (Sensor.state s') = true /\
    ((Sensor.samples s' <? Sensor.samples_per_reading s) = true ->
     Sensor.state s' = Sensor.state s /\
     Sensor.temperature s' = Sensor.temperature s))).
Proof.
  unfold sensor_callback.
  cbn [Sensor.state Sensor.set_code Sensor.samples].
  destruct (sensor_running (Sensor.state s)) eqn:Hrun.
  - replace (SensorState_eqb (Sensor.state s) SENSOR_UNINIT
             || SensorState_eqb (Sensor.state s) SENSOR_SHUTDOWN) with false
      by (destruct (Sensor.state s); try discriminate Hrun; reflexivity).
    match goal with
    | |- context [_sensor_sample hdr SAMPLE (?a, k) ?b] =>
        pose proof (sensor_sample_frame hdr SAMPLE a k b) as F;
        destruct (_sensor_sample hdr SAMPLE (a, k) b) as [x [s1 k1]];
        apply same_but_previous_temp_fields in F;
        destruct F as (F1 & F2 & F3 & F4 & F5 & F6)
    end.
    cbn [fst snd] in F1, F2, F3, F4, F5, F6.
    assert (G1 : Sensor.state s1 = Sensor.state s)
      by (rewrite F1; destruct (Sensor.samples s =? 0); reflexivity).
    assert (G3 : Sensor.samples s1 = Sensor.samples s)
      by (rewrite F3; destruct (Sensor.samples s =? 0); reflexivity).
    assert (G4 : Sensor.temperature s1 = Sensor.temperature s)
      by (rewrite F4; destruct (Sensor.samples s =? 0); reflexivity).
    assert (G6 : sensor_config s1 = sensor_config s)
      by (rewrite F6; destruct (Sensor.samples s =? 0); reflexivity).
    clear F1 F2 F3 F4 F5 F6.
    destruct s1 as [st1 cd1 spr1 smp1 rt1 tmp1 prev1 acc1 var1 disc1 nop1].
    cbn in G1, G3, G4. unfold sensor_config in G6 |- *. cbn in G6.
    destruct (SURFACE_OF_THE_SUN hdr <? x)%float.
    + cbn. split; [exact G6|]. right; left. auto.
    + sensor_cbn.
      injection G6 as C1 C2 C3 C4 C5.
      rewrite <- C1.
      destruct (u8_incr smp1 <? spr1) eqn:Elt.
      * cbn. split; [congruence|]. right; right.
        rewrite G3, G1, G4. rewrite Hrun. auto.
      * split.
        -- destruct (SENSOR_DISCONNECTED_TEMPERATURE hdr <? _)%float;
             [|destruct (_ <? SENSOR_NO_POWER_TEMPERATURE hdr)%float];
             cbn; congruence.
        -- right; right. split; [reflexivity|].
           destruct (SENSOR_DISCONNECTED_TEMPERATURE hdr <? _)%float;
             [|destruct (_ <? SENSOR_NO_POWER_TEMPERATURE hdr)%float];
             cbn; rewrite G3; repeat split; try reflexivity;
             try (rewrite <- G3, Elt in *; discriminate).
  - replace (SensorState_eqb (Sensor.state s) SENSOR_UNINIT
             || SensorState_eqb (Sensor.state s) SENSOR_SHUTDOWN) with true
      by (destruct (Sensor.state s); try discriminate Hrun; reflexivity).
    cbn. split; [reflexivity|]. left. auto.
Qed.

Lemma heater_callback_keeps (hdr : Header) (s : Sensor.t) (h : Heater.t) :
  let r := snd (heater_callback hdr (s, h)) in
  heater_config (snd r) = heater_config h /\
  sensor_config (fst r) = sensor_config s /\
  Sensor.state (fst r) = Sensor.state s /\
  Sensor.temperature (fst r) = Sensor.temperature s /\
  (heater_active (Heater.state h) = true -> Sensor.samples (fst r) = 0).
Proof.
  unfold heater_callback, sensor_start_temperature_reading, sensor_get_state,
    sensor_get_temperature.
  destruct h as [st c tp sp tm at_ rt amb ovh].
  destruct st; cbn;
    repeat match goal with
           | |- context [if ?c then _ else _] => destruct c; cbn
           end;
    repeat split; intros; try reflexivity; discriminate.
Qed.

Lemma heater_callback_no_data (hdr : Header) (s : Sensor.t) (h : Heater.t) :
  SensorState_eqb (Sensor.state s) SENSOR_HAS_DATA = false ->
  snd (snd (heater_callback hdr (s, h))) = Heater.set_code h HEATER_OK.
Proof.
  intros Hs.
  unfold heater_callback, sensor_start_temperature_reading, sensor_get_state.
  cbn [Heater.state Heater.set_code Sensor.state Sensor.set_samples].
  rewrite Hs. destruct (Heater.state h); reflexivity.
Qed.

Lemma tick_periods_S (hdr : Header) (SAMPLE : nat -> float) (n : nat)
  (g : Globals) :
  tick_periods hdr SAMPLE (S n) g
  = tick_period hdr SAMPLE (tick_periods hdr SAMPLE n g).
Proof. reflexivity. Qed.

(** One timer period keeps the PID struct and the configuration. *)
Lemma tick_period_keeps (hdr : Header) (SAMPLE : nat -> float) (g : Globals) :
  pid (tick_period hdr SAMPLE g) = pid g /\
  heater_config (heater (tick_period hdr SAMPLE g)) = heater_config (heater g) /\
  sensor_config (sensor (tick_period hdr SAMPLE g)) = sensor_config (sensor g) /\
  Device.pwm_freq (device (tick_period hdr SAMPLE g))
  = Device.pwm_freq (device g).
Proof.
  destruct (tick_period_data hdr SAMPLE g) as (Dp & _ & Dw & Dsh).
  destruct (sensor_callback_outcome hdr SAMPLE (sensor g) (adc_reads g))
    as [Cs _].
  split; [exact Dp|].
  assert (E : heater_config (heater (tick_period hdr SAMPLE g))
              = heater_config (heater g) /\
              sensor_config (sensor (tick_period hdr SAMPLE g))
              = sensor_config (sensor g)).
  { destruct (u8_decr (Device.tick_100ms_count (device g)) =? 0).
    - match type of Dsh with
      | _ = snd (heater_callback hdr (?a, ?b)) =>
          destruct (heater_callback_keeps hdr a b) as (K1 & K2 & _)
      end.
      rewrite <- Dsh in K1, K2. cbn [fst snd] in K1, K2.
      rewrite K1, K2, Cs. auto.
    - pose proof (f_equal fst Dsh) as E1. pose proof (f_equal snd Dsh) as E2.
      cbn [fst snd] in E1, E2. rewrite E1, E2, Cs. auto. }
  destruct E as [E1 E2]. auto.
Qed.

(** X12.  From any state of the static data and for any number of timer
    periods, the tick chain ([tick_callback], [tick_10ms], [tick_100ms],
    [tick_1sec], [sensor_callback], [heater_callback]) leaves the PID struct
    as it was (no handler calls [pid_callback] or [pid_calc]), and keeps the
    PWM frequency field, the heater's set point, timeouts and temperature
    limits, and the sensor's window size, retry budget, variance bound and
    temperature limits. *)
Theorem tick_keeps_pid_and_configuration :
  forall (hdr : Header) (SAMPLE : nat -> float) (g : Globals) (n : nat),
    pid (tick_periods hdr SAMPLE n g) = pid g /\
    heater_config (heater (tick_periods hdr SAMPLE n g))
    = heater_config (heater g) /\
    sensor_config (sensor (tick_periods hdr SAMPLE n g))
    = sensor_config (sensor g) /\
    Device.pwm_freq (device (tick_periods hdr SAMPLE n g))
    = Device.pwm_freq (device g).
Proof.
  intros hdr SAMPLE g n. induction n as [|n IH].
  - cbn [tick_periods]. auto.
  - rewrite tick_periods_S.
    destruct IH as (Ip & Ih & Is & Iw).
    destruct (tick_period_keeps hdr SAMPLE (tick_periods hdr SAMPLE n g))
      as (Kp & Kh & Ks & Kw).
    rewrite Kp, Kh, Ks, Kw. auto.
Qed.

(** One timer period with the sensor stopped. *)
Lemma blind_period (hdr : Header) (SAMPLE : nat -> float) (g : Globals) :
  sensor_running (Sensor.state (sensor g)) = false ->
  Sensor.state (sensor (tick_period hdr SAMPLE g)) = Sensor.state (sensor g) /\
  adc_reads (tick_period hdr SAMPLE g) = adc_reads g /\
  heater (tick_period hdr SAMPLE g) = heater g \/
  Sensor.state (sensor (tick_period hdr SAMPLE g)) = Sensor.state (sensor g) /\
  adc_reads (tick_period hdr SAMPLE g) = adc_reads g /\
  heater (tick_period hdr SAMPLE g) = Heater.set_code (heater g) HEATER_OK.
Proof.
  intros Hstop.
  destruct (tick_period_data hdr SAMPLE g) as (_ & Dk & _ & Dsh).
  destruct (sensor_callback_outcome hdr SAMPLE (sensor g) (adc_reads g))
    as [_ [(_ & Os & _ & Ok) | [(Hr & _) | (Hr & _)]]];
    try (rewrite Hstop in Hr; discriminate Hr).
  rewrite Dk, Ok.
  destruct (u8_decr (Device.tick_100ms_count (device g)) =? 0);
    pose proof (f_equal fst Dsh) as E1; pose proof (f_equal snd Dsh) as E2;
    cbn [fst snd] in E1, E2.
  - right.
    match type of Dsh with
    | _ = snd (heater_callback hdr (?a, ?b)) =>
        destruct (heater_callback_keeps hdr a b) as (_ & _ & K3 & _);
        assert (Hno : SensorState_eqb (Sensor.state a) SENSOR_HAS_DATA = false)
          by (rewrite Os; destruct (Sensor.state (sensor g));
              try discriminate Hstop; reflexivity);
        pose proof (heater_callback_no_data hdr a b Hno) as K4
    end.
    rewrite E1, E2, K3, Os, K4. auto.
  - left. rewrite E1, E2, Os. auto.
Qed.

(** X13.  With the sensor uninitialised or shut down, for instance after
    [SENSOR_BAD_READINGS], the tick chain changes nothing of the heater but
    its code: after any number of timer periods the sensor is in the same
    state, the ADC has not been read, and the heater has the state, the
    temperature and the regulation timer it had.  A heater that was heating
    goes on heating and neither timeout can fire. *)
Theorem heater_blind_to_stopped_sensor :
  forall (hdr : Header) (SAMPLE : nat -> float) (g : Globals) (n : nat),
    Sensor.state (sensor g) = SENSOR_UNINIT \/
    Sensor.state (sensor g) = SENSOR_SHUTDOWN ->
    Sensor.state (sensor (tick_periods hdr SAMPLE n g))
    = Sensor.state (sensor g) /\
    adc_reads (tick_periods hdr SAMPLE n g) = adc_reads g /\
    same_but_code (heater g) (heater (tick_periods hdr SAMPLE n g)) /\
    Heater.state (heater (tick_periods hdr SAMPLE n g))
    = Heater.state (heater g) /\
    Heater.regulation_timer (heater (tick_periods hdr SAMPLE n g))
    = Heater.regulation_timer (heater g).
Proof.
  intros hdr SAMPLE g n Hst.
  assert (I : Sensor.state (sensor (tick_periods hdr SAMPLE n g))
              = Sensor.state (sensor g) /\
              adc_reads (tick_periods hdr SAMPLE n g) = adc_reads g /\
              same_but_code (heater g) (heater (tick_periods hdr SAMPLE n g))).
  { induction n as [|n IH].
    - cbn [tick_periods]. repeat split; reflexivity.
    - rewrite tick_periods_S. destruct IH as (Is & Ik & Ih).
      assert (Hstop : sensor_running
                (Sensor.state (sensor (tick_periods hdr SAMPLE n g))) = false)
        by (rewrite Is; destruct Hst as [-> | ->]; reflexivity).
      unfold same_but_code in *.
      destruct (blind_period hdr SAMPLE _ Hstop)
        as [(Bs & Bk & Bh) | (Bs & Bk & Bh)];
        rewrite Bs, Bk, Bh, Is, Ik; repeat split; try reflexivity.
      + exact Ih.
      + rewrite <- Ih.
        destruct (heater (tick_periods hdr SAMPLE n g)); reflexivity. }
  destruct I as (Is & Ik & Ih). repeat split; try assumption.
  - apply (f_equal Heater.state) in Ih. exact Ih.
  - apply (f_equal Heater.regulation_timer) in Ih. exact Ih.
Qed.

Lemma heater_blind_to_stopped_sensor_witness :
  Heater.state
    (heater (tick_periods scenario_header steady_450 500
               heating_sensor_shut_down))
  = HEATER_HEATING /\
  Heater.regulation_timer
    (heater (tick_periods scenario_header steady_450 500
               heating_sensor_shut_down))
  = 12.5%float.
Proof.
  destruct (heater_blind_to_stopped_sensor scenario_header steady_450
              heating_sensor_shut_down 500)
    as (_ & _ & _ & Hst & Hrt); [right; reflexivity|].
  split; [exact Hst | exact Hrt].
Defined.

(** ** The window and the heater's period *)

Lemma u8_incr_small (x : Z) : 0 <= x < 255 -> u8_incr x = x + 1.
Proof. intros H. unfold u8_incr. apply Z.mod_small. lia. Qed.

Lemma starved_period (hdr : Header) (SAMPLE : nat -> float) (g : Globals) :
  starved g ->
  starved (tick_period hdr SAMPLE g) /\
  same_but_code (heater g) (heater (tick_period hdr SAMPLE g)).
Proof.
  intros (Hc & Hd & H0 & Hsum & Hspr & Hno & Hact).
  destruct (tick_period_step hdr SAMPLE g Hc Hd) as (_ & S1 & S2 & S3).
  destruct (tick_period_data hdr SAMPLE g) as (_ & _ & _ & Dsh).
  destruct (sensor_callback_outcome hdr SAMPLE (sensor g) (adc_reads g))
    as [Cs Out].
  set (s1 := fst (snd (sensor_callback hdr SAMPLE (sensor g, adc_reads g))))
    in *.
  assert (Cspr : Sensor.samples_per_reading s1
                 = Sensor.samples_per_reading (sensor g))
    by (apply (f_equal (fun c => fst (fst c))) in Cs; exact Cs).
  assert (A : 0 <= Sensor.samples s1 <= Sensor.samples (sensor g) + 1 /\
              SensorState_eqb (Sensor.state s1) SENSOR_HAS_DATA = false).
  { destruct Out as [(_ & Os & Om & _) | [(_ & Os & Om) | (_ & Om & _ & Ok)]].
    - rewrite Os, Om. split; [lia | exact Hno].
    - rewrite Os, Om. split; [lia | reflexivity].
    - rewrite u8_incr_small in Om by lia.
      assert (Hlt : (Sensor.samples s1
                     <? Sensor.samples_per_reading (sensor g)) = true)
        by (apply Z.ltb_lt; lia).
      destruct (Ok Hlt) as [Os _]. rewrite Os, Om. split; [lia | exact Hno]. }
  destruct A as [Hs1 Hno1].
  rewrite (u8_decr_small _ Hc) in Dsh.
  destruct (Z.eq_dec (Device.tick_100ms_count (device g)) 1) as [Ec | Ec].
  - replace (Device.tick_100ms_count (device g) - 1 =? 0) with true in Dsh
      by (symmetry; apply Z.eqb_eq; lia).
    pose proof (f_equal fst Dsh) as E1. pose proof (f_equal snd Dsh) as E2.
    cbn [fst snd] in E1, E2.
    destruct (heater_callback_keeps hdr s1 (heater g))
      as (_ & K2 & K3 & _ & K5).
    pose proof (heater_callback_no_data hdr s1 (heater g) Hno1) as K4.
    assert (Cspr2 : Sensor.samples_per_reading
                      (fst (snd (heater_callback hdr (s1, heater g))))
                    = Sensor.samples_per_reading s1)
      by (apply (f_equal (fun c => fst (fst c))) in K2; exact K2).
    assert (D : Device.tick_100ms_count (device (tick_period hdr SAMPLE g))
                = 10 /\
                1 <= Device.tick_1sec_count
                       (device (tick_period hdr SAMPLE g)) <= 10).
    { destruct (Z.eq_dec (Device.tick_1sec_count (device g)) 1) as [Ed | Ed].
      - destruct (S3 Ec Ed) as (-> & -> & _). lia.
      - destruct (S2 Ec Ed) as (-> & -> & _). lia. }
    destruct D as [D1 D2].
    unfold starved, same_but_code.
    rewrite E1, E2, K4, K3, Cspr2, Cspr, (K5 Hact), D1.
    cbn [Heater.state Heater.set_code].
    repeat split; try assumption; try lia;
      try (destruct (heater g); reflexivity).
  - replace (Device.tick_100ms_count (device g) - 1 =? 0) with false in Dsh
      by (symmetry; apply Z.eqb_neq; lia).
    pose proof (f_equal fst Dsh) as E1. pose proof (f_equal snd Dsh) as E2.
    cbn [fst snd] in E1, E2.
    destruct (S1 Ec) as (D1 & D2 & _).
    unfold starved, same_but_code.
    rewrite E1, E2, D1, D2, Cspr.
    repeat split; try assumption; try lia.
Qed.

(** X15.  A window longer than the heater's period never closes.  With both
    counters in [1, 10], a sensor without data that needs more than 10
    samples per reading and has taken no more samples than periods have
    passed since the last 100 ms boundary, and a heater that is on, heating,
    at temperature or cooling: after any number of timer periods the sensor
    is still not in [SENSOR_HAS_DATA], because [heater_callback] restarts the
    window every tenth period, and the heater has the state, the temperature
    and the regulation timer it had. *)
Theorem window_longer_than_heater_period_starves :
  forall (hdr : Header) (SAMPLE : nat -> float) (g : Globals) (n : nat),
    1 <= Device.tick_100ms_count (device g) <= 10 ->
    1 <= Device.tick_1sec_count (device g) <= 10 ->
    0 <= Sensor.samples (sensor g) ->
    Sensor.samples (sensor g) + Device.tick_100ms_count (device g) <= 10 ->
    10 < Sensor.samples_per_reading (sensor g) ->
    SensorState_eqb (Sensor.state (sensor g)) SENSOR_HAS_DATA = false ->
    heater_active (Heater.state (heater g)) = true ->
    SensorState_eqb (Sensor.state (sensor (tick_periods hdr SAMPLE n g)))
      SENSOR_HAS_DATA = false /\
    same_but_code (heater g) (heater (tick_periods hdr SAMPLE n g)) /\
    Heater.state (heater (tick_periods hdr SAMPLE n g))
    = Heater.state (heater g) /\
    Heater.regulation_timer (heater (tick_periods hdr SAMPLE n g))
    = Heater.regulation_timer (heater g).
Proof.
  intros hdr SAMPLE g n Hc Hd H0 Hsum Hspr Hno Hact.
  assert (I : starved (tick_periods hdr SAMPLE n g) /\
              same_but_code (heater g) (heater (tick_periods hdr SAMPLE n g))).
  { induction n as [|n [IP IH]].
    - cbn [tick_periods]. unfold starved, same_but_code. auto 10.
    - rewrite tick_periods_S.
      destruct (starved_period hdr SAMPLE _ IP) as [P' H'].
      split; [exact P'|].
      unfold same_but_code in *. rewrite H'. exact IH. }
  destruct I as [(_ & _ & _ & _ & _ & Hno' & _) Ih].
  repeat split; try assumption.
  - apply (f_equal Heater.state) in Ih. exact Ih.
  - apply (f_equal Heater.regulation_timer) in Ih. exact Ih.
Qed.

Lemma window_longer_than_heater_period_starves_witness :
  SensorState_eqb
    (Sensor.state
       (sensor (tick_periods scenario_header ramp 1000 startup_long_window)))
    SENSOR_HAS_DATA = false /\
  Heater.state
    (heater (tick_periods scenario_header ramp 1000 startup_long_window))
  = HEATER_ON.
Proof.
  destruct (window_longer_than_heater_period_starves scenario_header ramp
              startup_long_window 1000)
    as (Hno & _ & Hst & _);
    [cbn; lia | cbn; lia | cbn; lia | cbn; lia | cbn; lia
    | reflexivity | reflexivity | ].
  split; [exact Hno | exact Hst].
Defined.

(** Until the 100 ms counter runs out, a timer period is one call of
    [sensor_callback]. *)
Lemma sensor_periods (hdr : Header) (SAMPLE : nat -> float) (g : Globals)
  (n : nat) :
  1 <= Device.tick_100ms_count (device g) <= 10 ->
  1 <= Device.tick_1sec_count (device g) <= 10 ->
  Z.of_nat n < Device.tick_100ms_count (device g) ->
  Device.tick_100ms_count (device (tick_periods hdr SAMPLE n g))
  = Device.tick_100ms_count (device g) - Z.of_nat n /\
  Device.tick_1sec_count (device (tick_periods hdr SAMPLE n g))
  = Device.tick_1sec_count (device g) /\
  heater (tick_periods hdr SAMPLE n g) = heater g /\
  (sensor (tick_periods hdr SAMPLE n g),
   adc_reads (tick_periods hdr SAMPLE n g))
  = snd (sensor_ticks hdr SAMPLE n (sensor g, adc_reads g)).
Proof.
  intros Hc Hd. induction n as [|n IH]; intros Hn.
  - cbn [tick_periods sensor_ticks snd]. repeat split; lia.
  - rewrite tick_periods_S, sensor_ticks_S.
    destruct IH as (Ic & Id & Ih & Is); [lia|].
    set (gn := tick_periods hdr SAMPLE n g) in *.
    destruct (tick_period_step hdr SAMPLE gn) as (_ & S1 & _); [lia | lia |].
    destruct S1 as (D1 & D2 & _); [lia|].
    destruct (tick_period_data hdr SAMPLE gn) as (_ & Dk & _ & Dsh).
    rewrite u8_decr_small in Dsh by lia.
    replace (Device.tick_100ms_count (device gn) - 1 =? 0) with false in Dsh
      by (symmetry; apply Z.eqb_neq; lia).
    pose proof (f_equal fst Dsh) as E1. pose proof (f_equal snd Dsh) as E2.
    cbn [fst snd] in E1, E2.
    rewrite D1, D2, E1, E2, Dk, <- Is, Ic, Id, Ih.
    repeat split; try lia.
    destruct (snd (sensor_callback hdr SAMPLE (sensor gn, adc_reads gn)));
      reflexivity.
Qed.

(** With the counter at 10, the first call of [heater_callback] comes in the
    tenth period, after the tenth call of [sensor_callback]. *)
Lemma first_heater_tick (hdr : Header) (SAMPLE : nat -> float) (g : Globals) :
  Device.tick_100ms_count (device g) = 10 ->
  1 <= Device.tick_1sec_count (device g) <= 10 ->
  (sensor (tick_periods hdr SAMPLE 10 g),
   heater (tick_periods hdr SAMPLE 10 g))
  = snd (heater_callback hdr
           (fst (snd (sensor_ticks hdr SAMPLE 10 (sensor g, adc_reads g))),
            heater g)) /\
  adc_reads (tick_periods hdr SAMPLE 10 g)
  = snd (snd (sensor_ticks hdr SAMPLE 10 (sensor g, adc_reads g))).
Proof.
  intros Hc Hd.
  destruct (sensor_periods hdr SAMPLE g 9) as (Ic & Id & Ih & Is);
    [lia | lia | lia |].
  rewrite tick_periods_S, sensor_ticks_S.
  set (g9 := tick_periods hdr SAMPLE 9 g) in *.
  destruct (tick_period_data hdr SAMPLE g9) as (_ & Dk & _ & Dsh).
  rewrite u8_decr_small in Dsh by lia.
  replace (Device.tick_100ms_count (device g9) - 1 =? 0) with true in Dsh
    by (symmetry; apply Z.eqb_eq; lia).
  rewrite Dsh, Dk, <- Is, Ih. auto.
Qed.

(** X14.  The first reading the heater acts on.  With the 100 ms counter at
    10, a fresh window of [N <= 10] samples, a heater in [HEATER_ON] and ten
    good samples (each within the variance bound of its predecessor, none
    above [SURFACE_OF_THE_SUN], their mean within the disconnect and
    no-power limits): after ten timer periods the heater is in
    [HEATER_HEATING] with its regulation timer at 0 and, as its temperature,
    the mean of all ten samples read, not of the [N] of the window; the
    sensor holds that mean in [SENSOR_HAS_DATA], and its window has been
    restarted. *)
Theorem heater_starts_on_mean_of_ten_samples :
  forall (hdr : Header) (SAMPLE : nat -> float) (g : Globals) (N : nat),
    Device.tick_100ms_count (device g) = 10 ->
    1 <= Device.tick_1sec_count (device g) <= 10 ->
    Sensor.state (sensor g) = SENSOR_HAS_NO_DATA \/
    Sensor.state (sensor g) = SENSOR_HAS_DATA ->
    Sensor.samples (sensor g) = 0 ->
    Sensor.samples_per_reading (sensor g) = Z.of_nat N ->
    (1 <= N <= 10)%nat ->
    1 <= Sensor.retries (sensor g) ->
    (forall j : nat, (j < 10)%nat ->
       (SURFACE_OF_THE_SUN hdr <? SAMPLE (j + adc_reads g)%nat)%float
       = false) ->
    (forall j : nat, (S j < 10)%nat ->
       (fabs (SAMPLE (S j + adc_reads g)%nat - SAMPLE (j + adc_reads g)%nat)
        <? Sensor.variance (sensor g))%float = true) ->
    Heater.state (heater g) = HEATER_ON ->
    let m := mean (window SAMPLE (adc_reads g) 10) in
    (SENSOR_DISCONNECTED_TEMPERATURE hdr <? m)%float = false ->
    (m <? SENSOR_NO_POWER_TEMPERATURE hdr)%float = false ->
    heater (tick_periods hdr SAMPLE 10 g)
    = heating_with (heater g) HEATER_OK m 0 /\
    Sensor.state (sensor (tick_periods hdr SAMPLE 10 g)) = SENSOR_HAS_DATA /\
    Sensor.temperature (sensor (tick_periods hdr SAMPLE 10 g)) = m /\
    Sensor.samples (sensor (tick_periods hdr SAMPLE 10 g)) = 0 /\
    adc_reads (tick_periods hdr SAMPLE 10 g) = (10 + adc_reads g)%nat.
Proof.
  intros hdr SAMPLE g N Hc Hd Hrun Hfresh Hspr HN Hret Hsun Hvar Hon m
    Hdisc Hnop.
  destruct (first_heater_tick hdr SAMPLE g Hc Hd) as [Esh Ek].
  assert (R : snd (sensor_ticks hdr SAMPLE 10 (sensor g, adc_reads g))
              = (reading_done hdr (sensor g) (Z.of_nat 10)
                   (SAMPLE (Nat.pred 10 + adc_reads g)%nat)
                   (sum_samples (window SAMPLE (adc_reads g) 10)),
                 (10 + adc_reads g)%nat)).
  { apply (running_mean_run hdr SAMPLE (sensor g) (adc_reads g) N).
    - exact Hrun.
    - exact Hfresh.
    - exact Hspr.
    - lia.
    - lia.
    - intros _. exact Hret.
    - exact Hsun.
    - exact Hvar. }
  rewrite R in Esh, Ek. clear R.
  revert Esh Ek. generalize (tick_periods hdr SAMPLE 10 g). intros g10 Esh Ek.
  cbn [fst snd] in Esh, Ek.
  assert (Em : (sum_samples (window SAMPLE (adc_reads g) 10)
                / double_of_u8 (Z.of_nat 10))%float = m)
    by (unfold m, mean; rewrite window_length; reflexivity).
  unfold reading_done in Esh. rewrite Em, Hdisc, Hnop in Esh.
  pose proof (f_equal fst Esh) as E1. pose proof (f_equal snd Esh) as E2.
  cbn [fst] in E1. cbn [snd] in E2.
  rewrite E1, E2, Ek.
  unfold heater_callback, sensor_start_temperature_reading, sensor_get_state,
    sensor_get_temperature, heating_with.
  destruct (heater g) as [st c tp sp tm at_ rt amb ovh].
  cbn [Heater.state] in Hon. subst st.
  cbn [Heater.state Heater.set_code Heater.code Heater.temperature
       Heater.set_temperature Heater.setpoint Heater.regulation_timer
       Heater.set_regulation_timer Heater.ambient_timeout
       Heater.regulation_timeout Heater.ambient_temperature
       Heater.overheat_temperature Heater.set_state
       Sensor.state Sensor.set_samples Sensor.temperature Sensor.samples
       HeaterState_eqb SensorState_eqb orb negb fst snd].
  auto.
Qed.

Lemma heater_starts_on_mean_of_ten_samples_witness :
  heater (tick_periods scenario_header ramp 10 startup_heater_on)
  = heating_with (heater startup_heater_on) HEATER_OK
      (mean (window ramp 0 10)) 0.
Proof.
  apply (heater_starts_on_mean_of_ten_samples scenario_header ramp
           startup_heater_on 8);
    [reflexivity | cbn; lia | left; reflexivity | reflexivity | reflexivity
    | lia | cbn; lia | below 10 | below 9 | reflexivity
    | vm_compute; reflexivity | vm_compute; reflexivity].
Defined.

(** ** One tick per pass of the dispatch loop *)

Lemma tick_callback_pending (hdr : Header) (SAMPLE : nat -> float)
    (g : Globals) :
  Device.tick_flag (device g) = true ->
  fst (tick_callback hdr SAMPLE g) = SC_OK /\
  Device.tick_flag (device (snd (tick_callback hdr SAMPLE g))) = false /\
  runs Tick10ms (snd (tick_callback hdr SAMPLE g)) = S (runs Tick10ms g).
Proof.
  intros Hf. unfold tick_callback. rewrite Hf.
  device_cbn. cbv zeta.
  match goal with
  | |- context [tick_10ms hdr SAMPLE ?x] =>
      destruct (tick_10ms_frame hdr SAMPLE x) as [D1 C1];
      set (g1 := tick_10ms hdr SAMPLE x) in *
  end.
  device_cbn. cbn [device calls with_device] in D1, C1.
  rewrite D1. device_cbn.
  destruct (u8_decr (Device.tick_100ms_count (device g)) =? 0);
    cbn [negb fst snd].
  - match goal with
    | |- context [tick_100ms hdr ?x] =>
        destruct (tick_100ms_frame hdr x) as [D2 C2];
        set (g2 := tick_100ms hdr x) in *
    end.
    device_cbn. cbn [device calls with_device] in D2, C2.
    rewrite D2. device_cbn.
    destruct (u8_decr (Device.tick_1sec_count (device g)) =? 0);
      cbn [negb fst snd].
    + unfold tick_1sec, log, runs. device_cbn.
      rewrite C2, C1. repeat split.
    + unfold runs. device_cbn. rewrite C2, C1. repeat split.
  - unfold runs. device_cbn. rewrite C1. repeat split.
Qed.

Lemma TIMER0_OVF_vect_iter (m : nat) (d : Device.t) :
  Nat.iter (S m) TIMER0_OVF_vect d = TIMER0_OVF_vect d.
Proof.
  induction m as [|m IH]; [reflexivity|].
  change (Nat.iter (S (S m)) TIMER0_OVF_vect d)
    with (TIMER0_OVF_vect (Nat.iter (S m) TIMER0_OVF_vect d)).
  rewrite IH. reflexivity.
Qed.

(** X21.  Timer interrupts are not counted.  However many times
    [TIMER0_OVF_vect] fires before the dispatch loop reaches
    [tick_callback] (once or more), that call returns [SC_OK] and runs the
    10 ms handler exactly once; a second call with no interrupt in between
    returns [SC_NOOP] and changes nothing.  Interrupts that fire while one is
    pending are lost. *)
Theorem tick_serviced_once_per_pass :
  forall (hdr : Header) (SAMPLE : nat -> float) (g : Globals) (m : nat),
    let interrupted :=
      with_device g (Nat.iter (S m) TIMER0_OVF_vect (device g)) in
    let serviced := snd (tick_callback hdr SAMPLE interrupted) in
    fst (tick_callback hdr SAMPLE interrupted) = SC_OK /\
    runs Tick10ms serviced = S (runs Tick10ms g) /\
    tick_callback hdr SAMPLE serviced = (SC_NOOP, serviced).
Proof.
  intros hdr SAMPLE g m interrupted serviced.
  assert (Hf : Device.tick_flag (device interrupted) = true).
  { unfold interrupted. rewrite TIMER0_OVF_vect_iter. reflexivity. }
  destruct (tick_callback_pending hdr SAMPLE interrupted Hf) as (Hc & Hd & Hr).
  fold serviced in Hd, Hr.
  split; [exact Hc|]. split; [exact Hr|].
  unfold tick_callback at 1. rewrite Hd. reflexivity.
Qed.

(** X22.  One pass of the dispatch loop with a tick pending, for any
    communication handler that leaves the [device] struct alone.  If
    [kinen_callback] returns [SC_EAGAIN] the pass ends there: no tick handler
    runs and the tick stays pending.  For any other status [tick_callback]
    runs: the 10 ms handler runs once and the tick is no longer pending. *)
Theorem controller_defers_tick_to_kinen :
  forall (hdr : Header) (SAMPLE : nat -> float)
         (kinen_callback : Globals -> StatusCode * Globals) (g : Globals),
    (forall g0 : Globals, device (snd (kinen_callback g0)) = device g0) ->
    Device.tick_flag (device g) = true ->
    let g' := _controller hdr SAMPLE kinen_callback g in
    (fst (kinen_callback g) = SC_EAGAIN ->
       g' = snd (kinen_callback g) /\
       Device.tick_flag (device g') = true /\
       runs Tick10ms g' = runs Tick10ms (snd (kinen_callback g))) /\
    (fst (kinen_callback g) <> SC_EAGAIN ->
       g' = snd (tick_callback hdr SAMPLE (snd (kinen_callback g))) /\
       Device.tick_flag (device g') = false /\
       runs Tick10ms g' = S (runs Tick10ms (snd (kinen_callback g)))).
Proof.
  intros hdr SAMPLE kinen g Hk Hf g'. unfold g', _controller.
  specialize (Hk g). destruct (kinen g) as [sc gk]. cbn [fst snd] in *.
  split.
  - intros ->. cbn [StatusCode_eqb]. rewrite Hk, Hf. repeat split.
  - intros Hne.
    assert (Hfk : Device.tick_flag (device gk) = true)
      by (rewrite Hk; exact Hf).
    destruct (tick_callback_pending hdr SAMPLE gk Hfk) as (Hc & Hd & Hr).
    replace (StatusCode_eqb sc SC_EAGAIN) with false
      by (destruct sc; try reflexivity; contradiction Hne; reflexivity).
    destruct (tick_callback hdr SAMPLE gk) as [sc' gt]. cbn [fst snd] in *.
    subst sc'. cbn [StatusCode_eqb]. repeat split; assumption.
Qed.

Lemma controller_defers_tick_to_kinen_witness :
  runs Tick10ms
    (_controller scenario_header ramp kinen_busy startup_tick_pending)
  = 0%nat /\
  runs Tick10ms
    (_controller scenario_header ramp kinen_idle startup_tick_pending)
  = 1%nat.
Proof.
  split.
  - destruct (controller_defers_tick_to_kinen scenario_header ramp kinen_busy
                startup_tick_pending) as [Hbusy _];
      [reflexivity | reflexivity |].
    destruct (Hbusy eq_refl) as (_ & _ & Hruns). exact Hruns.
  - destruct (controller_defers_tick_to_kinen scenario_header ramp kinen_idle
                startup_tick_pending) as [_ Hidle];
      [reflexivity | reflexivity |].
    destruct Hidle as (_ & _ & Hruns); [discriminate | exact Hruns].
Defined.

(** ** The Kinen byte interface *)

Lemma array_set_length (a : list Z) (i : nat) (v : Z) :
  length (array_set a i v) = length a.
Proof.
  revert i. induction a as [|x a IH]; intros [|i]; cbn; auto.
Qed.

Lemma nth_array_set (a : list Z) (i j : nat) (v : Z) :
  (i < length a)%nat ->
  nth j (array_set a i v) 0 = if Nat.eqb j i then v else nth j a 0.
Proof.
  revert i j. induction a as [|x a IH]; intros i j Hi; cbn in Hi; [lia|].
  destruct i as [|i], j as [|j]; cbn; try reflexivity.
  apply IH. lia.
Qed.

Section Bytes.

Variables KINEN_COMMON_MAX DEVICE_ADDRESS_MAX : Z.
Variable device_array : list Z.
Hypothesis array_size : length device_array = Z.to_nat DEVICE_ADDRESS_MAX.

Lemma write_ok (addr data : Z) :
  fst (device_write_byte KINEN_COMMON_MAX DEVICE_ADDRESS_MAX device_array
         addr data) = SC_OK ->
  0 <= (addr - KINEN_COMMON_MAX) mod 256 < DEVICE_ADDRESS_MAX /\
  snd (device_write_byte KINEN_COMMON_MAX DEVICE_ADDRESS_MAX device_array
         addr data)
  = array_set device_array (Z.to_nat ((addr - KINEN_COMMON_MAX) mod 256))
      data.
Proof.
  clear array_size. unfold device_write_byte.
  pose proof (Z.mod_pos_bound (addr - KINEN_COMMON_MAX) 256 ltac:(lia)).
  set (a := (addr - KINEN_COMMON_MAX) mod 256) in *.
  destruct (Z.leb_spec DEVICE_ADDRESS_MAX a);
    cbn; intros E; [discriminate E|]. split; [lia | reflexivity].
Qed.

Lemma read_after_write (addr data addr2 d : Z) :
  fst (device_write_byte KINEN_COMMON_MAX DEVICE_ADDRESS_MAX device_array
         addr data) = SC_OK ->
  device_read_byte KINEN_COMMON_MAX DEVICE_ADDRESS_MAX
    (snd (device_write_byte KINEN_COMMON_MAX DEVICE_ADDRESS_MAX device_array
            addr data)) addr2 d
  = if (addr2 - KINEN_COMMON_MAX) mod 256 =? (addr - KINEN_COMMON_MAX) mod 256
    then (SC_OK, data)
    else device_read_byte KINEN_COMMON_MAX DEVICE_ADDRESS_MAX device_array
           addr2 d.
Proof.
  intros Hok. destruct (write_ok addr data Hok) as [Hr ->].
  unfold device_read_byte.
  pose proof (Z.mod_pos_bound (addr2 - KINEN_COMMON_MAX) 256 ltac:(lia)) as B.
  set (a := (addr - KINEN_COMMON_MAX) mod 256) in *.
  set (a2 := (addr2 - KINEN_COMMON_MAX) mod 256) in *.
  destruct (Z.eqb_spec a2 a) as [E | E].
  - rewrite E.
    replace (DEVICE_ADDRESS_MAX <=? a) with false
      by (symmetry; apply Z.leb_gt; lia).
    rewrite nth_array_set by lia. rewrite Nat.eqb_refl. reflexivity.
  - destruct (DEVICE_ADDRESS_MAX <=? a2); [reflexivity|].
    rewrite nth_array_set by lia.
    replace (Nat.eqb (Z.to_nat a2) (Z.to_nat a))
      with false by (symmetry; apply Nat.eqb_neq; lia).
    reflexivity.
Qed.

End Bytes.

(** X16.  On a device array of [DEVICE_ADDRESS_MAX] bytes, a
    [device_write_byte] that returns [SC_OK] keeps the length of the array,
    [device_read_byte] at the same address then returns [SC_OK] and the byte
    written, and a read at any address with another offset gives what it
    gave before the write. *)
Theorem device_write_then_read :
  forall (KINEN_COMMON_MAX DEVICE_ADDRESS_MAX : Z) (device_array : list Z)
         (addr data : Z),
    length device_array = Z.to_nat DEVICE_ADDRESS_MAX ->
    fst (device_write_byte KINEN_COMMON_MAX DEVICE_ADDRESS_MAX device_array
           addr data) = SC_OK ->
    let written :=
      snd (device_write_byte KINEN_COMMON_MAX DEVICE_ADDRESS_MAX device_array
             addr data) in
    length written = length device_array /\
    (forall d : Z,
       device_read_byte KINEN_COMMON_MAX DEVICE_ADDRESS_MAX written addr d
       = (SC_OK, data)) /\
    (forall addr2 d : Z,
       (addr2 - KINEN_COMMON_MAX) mod 256 <> (addr - KINEN_COMMON_MAX) mod 256 ->
       device_read_byte KINEN_COMMON_MAX DEVICE_ADDRESS_MAX written addr2 d
       = device_read_byte KINEN_COMMON_MAX DEVICE_ADDRESS_MAX device_array
           addr2 d).
Proof.
  intros K D arr addr data Hlen Hok written. unfold written.
  split; [|split].
  - destruct (write_ok K D arr addr data Hok) as [_ ->].
    apply array_set_length.
  - intros d. rewrite (read_after_write K D arr Hlen addr data addr d Hok).
    rewrite Z.eqb_refl. reflexivity.
  - intros addr2 d Hne.
    rewrite (read_after_write K D arr Hlen addr data addr2 d Hok).
    replace ((addr2 - K) mod 256 =? (addr - K) mod 256) with false
      by (symmetry; apply Z.eqb_neq; exact Hne).
    reflexivity.
Qed.

Lemma device_write_then_read_witness :
  device_read_byte 16 4
    (snd (device_write_byte 16 4 four_bytes 18 99)) 18 0
  = (SC_OK, 99).
Proof.
  destruct (device_write_then_read 16 4 four_bytes 18 99)
    as (_ & Hread & _); [reflexivity | reflexivity |].
  apply Hread.
Defined.

(** X17.  The addresses the device answers, when the common and the device
    registers together fit in one byte of address space
    ([KINEN_COMMON_MAX + DEVICE_ADDRESS_MAX <= 256]): for a byte [addr],
    both functions return [SC_OK] and use element [addr - KINEN_COMMON_MAX]
    exactly when [KINEN_COMMON_MAX <= addr < KINEN_COMMON_MAX +
    DEVICE_ADDRESS_MAX]; at any other address, an address below
    [KINEN_COMMON_MAX] included (the 8-bit subtraction wraps it to the top of
    the range), they return [SC_INVALID_ADDRESS] and leave the array and
    [*data] as they were. *)
Theorem device_address_window :
  forall (KINEN_COMMON_MAX DEVICE_ADDRESS_MAX : Z) (device_array : list Z)
         (addr data : Z),
    0 <= addr < 256 ->
    0 <= KINEN_COMMON_MAX ->
    0 <= DEVICE_ADDRESS_MAX ->
    KINEN_COMMON_MAX + DEVICE_ADDRESS_MAX <= 256 ->
    (KINEN_COMMON_MAX <= addr < KINEN_COMMON_MAX + DEVICE_ADDRESS_MAX ->
       device_write_byte KINEN_COMMON_MAX DEVICE_ADDRESS_MAX device_array
         addr data
       = (SC_OK,
          array_set device_array (Z.to_nat (addr - KINEN_COMMON_MAX)) data) /\
       device_read_byte KINEN_COMMON_MAX DEVICE_ADDRESS_MAX device_array
         addr data
       = (SC_OK, nth (Z.to_nat (addr - KINEN_COMMON_MAX)) device_array 0)) /\
    (addr < KINEN_COMMON_MAX \/
     KINEN_COMMON_MAX + DEVICE_ADDRESS_MAX <= addr ->
       device_write_byte KINEN_COMMON_MAX DEVICE_ADDRESS_MAX device_array
         addr data
       = (SC_INVALID_ADDRESS, device_array) /\
       device_read_byte KINEN_COMMON_MAX DEVICE_ADDRESS_MAX device_array
         addr data
       = (SC_INVALID_ADDRESS, data)).
Proof.
  intros K D arr addr data Ha HK HD HKD.
  unfold device_write_byte, device_read_byte. split.
  - intros Hin. rewrite Z.mod_small by lia.
    replace (D <=? addr - K) with false by (symmetry; apply Z.leb_gt; lia).
    split; reflexivity.
  - intros [Hlow | Hhigh].
    + replace ((addr - K) mod 256) with (addr - K + 256)
        by (apply Z.mod_unique with (q := -1); lia).
      replace (D <=? addr - K + 256) with true
        by (symmetry; apply Z.leb_le; lia).
      split; reflexivity.
    + rewrite Z.mod_small by lia.
      replace (D <=? addr - K) with true by (symmetry; apply Z.leb_le; lia).
      split; reflexivity.
Qed.

Lemma device_address_window_witness :
  device_read_byte 16 4 four_bytes 18 0 = (SC_OK, 51) /\
  device_read_byte 16 4 four_bytes 3 0 = (SC_INVALID_ADDRESS, 0).
Proof.
  split.
  - destruct (device_address_window 16 4 four_bytes 18 0) as [Hin _];
      [lia | lia | lia | lia |].
    destruct Hin as [_ Hread]; [lia | exact Hread].
  - destruct (device_address_window 16 4 four_bytes 3 0) as [_ Hout];
      [lia | lia | lia | lia |].
    destruct Hout as [_ Hread]; [left; lia | exact Hread].
Defined.

(** ** The LED *)

Lemma forallb_below (P : nat -> bool) (n : nat) :
  forallb P (seq 0 n) = true ->
  forall i : nat, (i < n)%nat -> P i = true.
Proof.
  intros H i Hi. rewrite forallb_forall in H. apply H.
  apply in_seq. lia.
Qed.

Lemma led_on_byte (LED_PIN LED_PORT : Z) :
  0 <= LED_PORT < 256 ->
  0 <= led_on LED_PIN LED_PORT < 256.
Proof.
  intros Hq.
  assert (E : led_on LED_PIN LED_PORT = led_on LED_PIN LED_PORT mod 2 ^ 8).
  { rewrite <- Z.land_ones by lia. unfold led_on.
    rewrite <- Z.land_assoc, (Z.land_comm (Z.lnot LED_PIN)), Z.land_assoc.
    rewrite (Z.land_ones LED_PORT 8) by lia.
    rewrite (Z.mod_small LED_PORT) by (change (2 ^ 8) with 256; lia).
    reflexivity. }
  rewrite E. change (2 ^ 8) with 256. apply Z.mod_pos_bound. lia.
Qed.


Lemma led_on_clears (LED_PIN LED_PORT : Z) :
  Z.land (led_on LED_PIN LED_PORT) LED_PIN = 0.
Proof.
  unfold led_on. rewrite <- Z.land_assoc.
  rewrite (Z.land_comm (Z.lnot LED_PIN)), Z.land_lnot_diag.
  apply Z.land_0_r.
Qed.

Lemma lor_byte (a b : Z) :
  0 <= a < 256 -> 0 <= b < 256 -> 0 <= Z.lor a b < 256.
Proof.
  intros Ha Hb. split; [apply Z.lor_nonneg; lia|].
  destruct (Z.eq_dec (Z.lor a b) 0) as [E|E]; [lia|].
  assert (P : 0 < Z.lor a b) by (pose proof (proj2 (Z.lor_nonneg a b)); lia).
  apply Z.log2_lt_pow2 with (b := 8); [exact P|].
  rewrite Z.log2_lor by lia.
  apply Z.max_lub_lt.
  - destruct (Z.eq_dec a 0) as [->|]; [cbn; lia|].
    apply Z.log2_lt_pow2; lia.
  - destruct (Z.eq_dec b 0) as [->|]; [cbn; lia|].
    apply Z.log2_lt_pow2; lia.
Qed.

Lemma led_off_lor (LED_PIN LED_PORT : Z) :
  0 <= LED_PIN < 256 -> 0 <= LED_PORT < 256 ->
  led_off LED_PIN LED_PORT = Z.lor LED_PORT LED_PIN.
Proof.
  intros Hp Hq. unfold led_off. apply Z.mod_small. apply lor_byte; lia.
Qed.

(** X18.  On an 8-bit port and for any pin mask: [led_on] clears every bit
    of [LED_PIN] (the LED is lit by a low pin), [led_off] sets every one, both
    leave the port a byte, and neither changes a bit of the port outside the
    mask. *)
Theorem led_on_off_touch_only_the_led :
  forall LED_PIN LED_PORT : Z,
    0 <= LED_PIN < 256 ->
    0 <= LED_PORT < 256 ->
    Z.land (led_on LED_PIN LED_PORT) LED_PIN = 0 /\
    Z.land (led_off LED_PIN LED_PORT) LED_PIN = LED_PIN /\
    0 <= led_on LED_PIN LED_PORT < 256 /\
    0 <= led_off LED_PIN LED_PORT < 256 /\
    (forall i : Z, 0 <= i -> Z.testbit LED_PIN i = false ->
       Z.testbit (led_on LED_PIN LED_PORT) i = Z.testbit LED_PORT i /\
       Z.testbit (led_off LED_PIN LED_PORT) i = Z.testbit LED_PORT i).
Proof.
  intros pin port Hp Hq.
  rewrite (led_off_lor pin port Hp Hq).
  split; [apply led_on_clears|].
  split.
  { apply Z.bits_inj'. intros i Hi.
    rewrite Z.land_spec, Z.lor_spec.
    destruct (Z.testbit port i), (Z.testbit pin i); reflexivity. }
  split.
  { apply led_on_byte; lia. }
  split; [apply lor_byte; lia|].
  intros i Hi Hb. unfold led_on.
  rewrite Z.land_spec, Z.lor_spec, Z.lnot_spec by exact Hi.
  rewrite Hb. cbn [negb]. rewrite andb_true_r, orb_false_r. split; reflexivity.
Qed.

Lemma led_on_off_touch_only_the_led_witness :
  Z.land (led_on 4 181) 4 = 0 /\ Z.land (led_off 4 181) 4 = 4 /\
  Z.testbit (led_on 4 181) 7 = Z.testbit 181 7.
Proof.
  destruct (led_on_off_touch_only_the_led 4 181) as (Hon & Hoff & _ & _ & Hbit);
    [lia | lia |].
  split; [exact Hon|]. split; [exact Hoff|].
  apply (Hbit 7); [lia | reflexivity].
Defined.

(** X19.  [led_toggle] tests [LED_PORT && LED_PIN], whether the port and the
    mask are both nonzero, not whether the LED's pin is high.  For a nonzero
    mask: when some other bit of the port is high, [led_toggle] switches the
    LED on, and a second [led_toggle] leaves it on; it alternates only on a
    port whose other bits are all low, where it takes 0 to [LED_PIN] and
    [LED_PIN] to 0. *)
Theorem led_toggle_sticks_on :
  forall LED_PIN LED_PORT : Z,
    0 <= LED_PIN < 256 ->
    LED_PIN <> 0 ->
    (led_on LED_PIN LED_PORT <> 0 ->
       led_toggle LED_PIN LED_PORT = led_on LED_PIN LED_PORT /\
       led_toggle LED_PIN (led_toggle LED_PIN LED_PORT)
       = led_on LED_PIN LED_PORT) /\
    led_toggle LED_PIN 0 = LED_PIN /\
    led_toggle LED_PIN LED_PIN = 0.
Proof.
  intros pin port Hp Hne.
  assert (Hpin : (pin =? 0) = false) by (apply Z.eqb_neq; exact Hne).
  split; [|split].
  - intros Hon.
    assert (Hport : (port =? 0) = false).
    { apply Z.eqb_neq. intros ->. apply Hon. unfold led_on.
      apply Z.land_0_l. }
    assert (T : led_toggle pin port = led_on pin port).
    { unfold led_toggle. rewrite Hport, Hpin. reflexivity. }
    split; [exact T|]. rewrite T.
    unfold led_toggle. rewrite Hpin.
    replace (led_on pin port =? 0) with false
      by (symmetry; apply Z.eqb_neq; exact Hon).
    cbn [negb andb]. unfold led_on.
    rewrite <- Z.land_assoc, Z.land_diag. reflexivity.
  - unfold led_toggle. cbn [Z.eqb negb andb]. unfold led_off.
    rewrite Z.lor_0_l. apply Z.mod_small. lia.
  - unfold led_toggle. rewrite Hpin. cbn [negb andb]. unfold led_on.
    apply Z.land_lnot_diag.
Qed.

Lemma led_toggle_sticks_on_witness :
  led_toggle 4 181 = 177 /\ led_toggle 4 (led_toggle 4 181) = 177.
Proof.
  destruct (led_toggle_sticks_on 4 181) as [H _]; [lia | lia |].
  apply H. discriminate.
Defined.

(** ** The ADC *)

Lemma admux_nibbles (a c : Z) :
  0 <= a < 256 -> 0 <= c < 16 ->
  Z.lor (Z.land a 240) c = 16 * (a / 16) + c.
Proof.
  intros Ha Hc.
  assert (Ia : (Z.to_nat a < 256)%nat) by lia.
  assert (Ic : (Z.to_nat c < 16)%nat) by lia.
  rewrite <- (Z2Nat.id a) by lia. rewrite <- (Z2Nat.id c) by lia.
  clear Ha Hc. revert Ic. generalize (Z.to_nat c). revert Ia.
  generalize (Z.to_nat a). clear a c. intros i Hi j Hj.
  apply Z.eqb_eq.
  refine (forallb_below
            (fun j => Z.lor (Z.land (Z.of_nat i) 240) (Z.of_nat j)
                      =? 16 * (Z.of_nat i / 16) + Z.of_nat j) 16 _ j Hj).
  refine (forallb_below
            (fun i => forallb
               (fun j => Z.lor (Z.land (Z.of_nat i) 240) (Z.of_nat j)
                         =? 16 * (Z.of_nat i / 16) + Z.of_nat j)
               (seq 0 16)) 256 _ i Hi).
  vm_compute. reflexivity.
Qed.

(** X20.  [adc_read] keeps the high nibble of [ADMUX] (the reference
    selection) and replaces the low nibble by the low nibble of [channel].
    Its wait loop tests [ADCSRA && (1<<ADIF) == 0], in which [(1<<ADIF) == 0]
    is false for every bit number that fits a 16-bit [int]: whatever
    [ADCSRA] holds the loop body never runs, and the conversion is not
    waited for. *)
Theorem adc_read_selects_channel_and_never_waits :
  forall ADIF ADCSRA ADMUX channel : Z,
    0 <= ADIF < 15 ->
    0 <= ADMUX < 256 ->
    0 <= channel < 256 ->
    adc_read_ADMUX ADMUX channel = 16 * (ADMUX / 16) + channel mod 16 /\
    adc_read_waits ADIF ADCSRA = false.
Proof.
  intros ADIF ADCSRA ADMUX channel Hb Hm Hc. split.
  - unfold adc_read_ADMUX.
    rewrite (Z.land_comm 15 channel).
    change 15 with (Z.ones 4). rewrite Z.land_ones by lia.
    change (2 ^ 4) with 16.
    apply admux_nibbles; [lia|]. apply Z.mod_pos_bound. lia.
  - unfold adc_read_waits.
    rewrite Z.shiftl_1_l.
    replace (2 ^ ADIF =? 0) with false; [apply andb_false_r|].
    symmetry. apply Z.eqb_neq.
    pose proof (Z.pow_pos_nonneg 2 ADIF ltac:(lia) ltac:(lia)). lia.
Qed.

Lemma adc_read_selects_channel_and_never_waits_witness :
  adc_read_ADMUX 67 5 = 69 /\ adc_read_waits 4 199 = false.
Proof.
  apply (adc_read_selects_channel_and_never_waits 4 199 67 5); lia.
Defined.
